(** * MonsoonViz: the data-loading and table-shaping logic of the two dashboards

    Shallow embedding of [dashboard-with-API.py] and [dashboard.py].

    - Python exceptions are a result type with an explicit exception value.
    - The outside world (HTTP endpoint, file system, clock, random number
      generator) is a record of oracles passed to every function.
    - A pandas DataFrame is a list of column labels and a list of rows; the
      constructors check what pandas checks.
    - Floating-point numbers are an abstract type with the operations the
      scripts use; nothing is assumed about their arithmetic. *)

From Stdlib Require Import ZArith QArith List Lia.
From stdpp Require Import base tactics option list strings sorting.

Set Default Proof Using "Type".
Local Open Scope string_scope.
Local Open Scope list_scope.

(* ===================================================================== *)
(** ** Python runtime: exceptions and results *)
(* ===================================================================== *)

Module Py.

(** The exceptions (all subclasses of [Exception]) that the operations of
    the two scripts can raise. *)
Inductive exn : Type :=
| FileNotFoundError
| PermissionError
| EmptyDataError          (* pandas.errors.EmptyDataError *)
| ParserError             (* pandas.errors.ParserError *)
| UnicodeDecodeError
| DriverError             (* reading a geospatial file *)
| ConnectionError         (* requests.exceptions.ConnectionError *)
| HTTPError (status : Z)  (* raised by raise_for_status *)
| JSONDecodeError
| KeyError (key : string)  (* the key, or the labels, not found *)
| TypeError
| ValueError (msg : string).

Inductive result (A : Type) : Type :=
| Ok (a : A)
| Raise (e : exn).
Arguments Ok {A} a.
Arguments Raise {A} e.

Definition bind {A B} (r : result A) (k : A → result B) : result B :=
  match r with
  | Ok a => k a
  | Raise e => Raise e
  end.

(** [try: body except Exception: handler] *)
Definition try_except {A} (body : result A) (handler : exn → result A)
  : result A :=
  match body with
  | Ok a => Ok a
  | Raise e => handler e
  end.

(** [try: body except FileNotFoundError: handler]; every other exception
    propagates. *)
Definition try_except_FileNotFoundError {A}
    (body : result A) (handler : result A) : result A :=
  match body with
  | Ok a => Ok a
  | Raise FileNotFoundError => handler
  | Raise e => Raise e
  end.

(** Sequencing a list of fallible steps, left to right. *)
Fixpoint mapM {A B} (f : A → result B) (l : list A) : result (list B) :=
  match l with
  | [] => Ok []
  | x :: l' =>
      bind (f x) (fun y => bind (mapM f l') (fun ys => Ok (y :: ys)))
  end.

(** Association-list lookup: a Python dict read by key. *)
Fixpoint assoc {B} (k : string) (d : list (string * B)) : option B :=
  match d with
  | [] => None
  | (k', v) :: d' => if decide (k = k') then Some v else assoc k d'
  end.

(** [list * n] *)
Definition list_times {A} (l : list A) (n : nat) : list A :=
  concat (replicate n l).

End Py.

Export Py.

Global Instance result_ret : MRet result := fun A a => Ok a.
Global Instance result_bind : MBind result := fun A B k r => Py.bind r k.

(* ===================================================================== *)
(** ** NumPy floats *)
(* ===================================================================== *)

(** The float64 operations used by the scripts. *)
Class Float64 (F : Type) : Type := {
  f_lit : Q → F;              (* a decimal or integer literal *)
  f_add : F → F → F;
  f_sub : F → F → F;
  f_mul : F → F → F;
  f_div : F → F → F;
  f_pi : F;                   (* np.pi *)
  f_sin : F → F;              (* np.sin *)
  f_cos : F → F;              (* np.cos *)
  f_radians : F → F;          (* np.radians *)
  f_mean : list F → F         (* mean of a non-empty group *)
}.

Module Np.
Section Np.
Context {F : Type} `{Float64 F}.

(** [np.linspace(start, stop, num)], for [num >= 2]: [num] evenly spaced
    samples, the last one being [stop] itself. *)
Definition linspace (start stop : F) (num : nat) : list F :=
  let step := f_div (f_sub stop start)
                    (f_lit (inject_Z (Z.of_nat (num - 1)))) in
  map (fun k : nat =>
         if decide (k = num - 1)%nat then stop
         else f_add (f_mul (f_lit (inject_Z (Z.of_nat k))) step) start)
      (seq 0 num).

(** [np.repeat(a, n)]: every element repeated [n] times in a row. *)
Definition repeat {A} (a : list A) (n : nat) : list A :=
  flat_map (fun x => replicate n x) a.

(** [np.tile(a, n)] *)
Definition tile {A} (a : list A) (n : nat) : list A := list_times a n.

End Np.
End Np.

(* ===================================================================== *)
(** ** pandas: cells, frames, constructors *)
(* ===================================================================== *)

Module Pd.
Section Pd.
Context {F : Type} `{Float64 F}.

Inductive cell : Type :=
| CStr (s : string)
| CNum (x : F)
| CNaN
| CPoint (x y : F)               (* shapely Point(x, y) *)
| CShape (outline : list (F * F)). (* any other geometry *)

Definition Row : Type := list (string * cell).

Record DataFrame : Type := mkDataFrame {
  df_columns : list string;
  df_rows : list Row
}.

Definition row_get (c : string) (r : Row) : cell :=
  default CNaN (assoc c r).

(** [pd.DataFrame(d)] for a dict [d] of equally long arrays. *)
Definition from_dict (d : list (string * list cell)) : result DataFrame :=
  match d with
  | [] => Ok (mkDataFrame [] [])
  | (_, col0) :: _ =>
      let n := length col0 in
      if forallb (fun kc : string * list cell =>
                    Nat.eqb (length kc.2) n) d
      then Ok (mkDataFrame (map fst d)
                 (map (fun i : nat =>
                         map (fun kc : string * list cell =>
                                (kc.1, nth i kc.2 CNaN)) d)
                      (seq 0 n)))
      else Raise (ValueError "All arrays must be of the same length")
  end.

(** Column labels of a list of records: keys in order of first
    appearance. *)
Definition record_keys (recs : list Row) : list string :=
  remove_dups (flat_map (map fst) recs).

(** [pd.DataFrame(recs)] for a list [recs] of dicts. *)
Definition from_records (recs : list Row) : DataFrame :=
  let cols := record_keys recs in
  mkDataFrame cols
    (map (fun r : Row => map (fun c => (c, row_get c r)) cols) recs).

(** [df.empty] *)
Definition df_empty (df : DataFrame) : bool :=
  match df_columns df, df_rows df with
  | [], _ | _, [] => true
  | _, _ => false
  end.

(** [df[c]] *)
Definition column (c : string) (df : DataFrame) : result (list cell) :=
  if decide (c ∈ df_columns df)
  then Ok (map (row_get c) (df_rows df))
  else Raise (KeyError c).

(** The string labels found in column ["State"]; no such column, no
    states. *)
Definition cell_label (c : cell) : option string :=
  match c with CStr s => Some s | _ => None end.

Definition states_of (df : DataFrame) : list string :=
  match column "State" df with
  | Ok cs => omap cell_label cs
  | Raise _ => []
  end.

(** [df[c] = f(df[c])], the in-place arithmetic updates [+=] and [*=]. *)
Definition set_column (c : string) (new : list cell) (r : list Row)
  : list Row :=
  zip_with (fun (row : Row) (v : cell) =>
              map (fun kv : string * cell =>
                     if decide (kv.1 = c) then (c, v) else kv) row)
           r new.

(** Elementwise [op] of a column with an array; the operands must be
    numbers (NaN stays NaN) and the lengths must agree. *)
Definition cell_arith (op : F → F → F) (c : cell) (y : F) : result cell :=
  match c with
  | CNum x => Ok (CNum (op x y))
  | CNaN => Ok CNaN
  | _ => Raise TypeError
  end.

Fixpoint cells_arith (op : F → F → F) (cs : list cell) (ys : list F)
  : result (list cell) :=
  match cs, ys with
  | [], [] => Ok []
  | c :: cs', y :: ys' =>
      v ← cell_arith op c y;
      vs ← cells_arith op cs' ys';
      Ok (v :: vs)
  | _, _ => Raise (ValueError "operands could not be broadcast together")
  end.

Definition update_column (c : string) (op : F → F → F) (ys : list F)
    (df : DataFrame) : result DataFrame :=
  old ← column c df;
  new ← cells_arith op old ys;
  Ok (mkDataFrame (df_columns df) (set_column c new (df_rows df))).

(** *** Labels and groups *)

(** The label of row [r] in column [key]; a missing value is no label. *)
Definition row_label (key : string) (r : Row) : option string :=
  cell_label (row_get key r).

(** Distinct labels in sorted order, as pandas orders group keys, pivot
    indexes and pivot columns. *)
Definition sorted_labels (ls : list string) : list string :=
  merge_sort String.le (remove_dups ls).

(** The rows whose label in column [key] is exactly [s]. *)
Definition group_rows (key s : string) (rows : list Row) : list Row :=
  filter (fun r => row_label key r = Some s) rows.

Definition numeric (c : cell) : result (option F) :=
  match c with
  | CNum x => Ok (Some x)
  | CNaN => Ok None
  | _ => Raise TypeError
  end.

(** Mean of a group, NaN skipped; a group with no number has mean NaN. *)
Definition mean_cell (cs : list cell) : result cell :=
  xs ← mapM numeric cs;
  match omap id xs with
  | [] => Ok CNaN
  | ys => Ok (CNum (f_mean ys))
  end.

(** [df.groupby(key)[val].mean()]: a series indexed by the sorted group
    labels. *)
Definition groupby_mean (key val : string) (df : DataFrame)
  : result (list (string * cell)) :=
  if decide (key ∈ df_columns df) then
    if decide (val ∈ df_columns df) then
      mapM (fun s =>
              m ← mean_cell (map (row_get val)
                                 (group_rows key s (df_rows df)));
              Ok (s, m))
           (sorted_labels (omap (row_label key) (df_rows df)))
    else Raise (KeyError val)
  else Raise (KeyError key).

(** *** Joins *)

(** The value a left row with key cell [k] receives from the right-hand
    series: the entry whose label equals the key, else NaN. *)
Definition join_value (right : list (string * cell)) (k : cell) : cell :=
  match cell_label k with
  | Some s => default CNaN (assoc s right)
  | None => CNaN
  end.

Definition rename_key (old new : string) (r : Row) : Row :=
  map (fun kv : string * cell =>
         if decide (kv.1 = old) then (new, kv.2) else kv) r.

(** [left.merge(right.reset_index(), on=key, how='left')] where [right]
    is a series named [val] with unique labels.  A column of [left] also
    named [val] gets the suffix [_x] and the new one [_y]. *)
Definition merge_left (key val : string) (left : DataFrame)
    (right : list (string * cell)) : result DataFrame :=
  if decide (key ∈ df_columns left) then
    if decide (val ∈ df_columns left) then
      Ok (mkDataFrame
            (map (fun c => if decide (c = val) then val +:+ "_x" else c)
                 (df_columns left) ++ [val +:+ "_y"])
            (map (fun r => rename_key val (val +:+ "_x") r
                             ++ [(val +:+ "_y",
                                  join_value right (row_get key r))])
                 (df_rows left)))
    else
      Ok (mkDataFrame (df_columns left ++ [val])
            (map (fun r => r ++ [(val, join_value right (row_get key r))])
                 (df_rows left)))
  else Raise (KeyError key).

(** A frame with a labelled index. *)
Record Indexed : Type := mkIndexed {
  ix_index : list cell;
  ix_columns : list string;
  ix_rows : list Row
}.

(** [left.set_index(key).join(right.to_frame())] where [right] is a
    series named [val]; overlapping column names are an error. *)
Definition set_index_join (key val : string) (left : DataFrame)
    (right : list (string * cell)) : result Indexed :=
  if decide (key ∈ df_columns left) then
    let cols := filter (fun c => c ≠ key) (df_columns left) in
    if decide (val ∈ cols) then
      Raise (ValueError "columns overlap but no suffix specified")
    else
      Ok (mkIndexed
            (map (row_get key) (df_rows left))
            (cols ++ [val])
            (map (fun r => filter (fun kv : string * cell => kv.1 ≠ key) r
                             ++ [(val, join_value right (row_get key r))])
                 (df_rows left)))
  else Raise (KeyError key).

(** *** Pivot *)

(** One observation of a long table: (index label, column label, value).
    Labels are modelled when they are strings, as are the labels of every
    table the two scripts build; what pandas does with a missing or a
    numeric label is outside the model, and such a row yields no
    observation here.  Statements about [pivot] are therefore made for
    tables whose label cells are all strings. *)
Definition observation (index columns values : string) (r : Row)
  : option (string * string * cell) :=
  i ← row_label index r;
  c ← row_label columns r;
  Some (i, c, row_get values r).

Definition pivot_cell (obs : list (string * string * cell))
    (i c : string) : cell :=
  match list_find (fun o : string * string * cell => o.1 = (i, c)) obs with
  | Some (_, o) => o.2
  | None => CNaN
  end.

(** [df.pivot(index=, columns=, values=)].  When several of the three
    columns are missing, which of them the KeyError names depends on the
    version of pandas; no statement below depends on it. *)
Definition pivot (index columns values : string) (df : DataFrame)
  : result Indexed :=
  if decide (index ∈ df_columns df) then
    if decide (columns ∈ df_columns df) then
      if decide (values ∈ df_columns df) then
        let obs := omap (observation index columns values) (df_rows df) in
        if decide (NoDup (map fst obs)) then
          let ix := sorted_labels (map (fun o => o.1.1) obs) in
          let cs := sorted_labels (map (fun o => o.1.2) obs) in
          Ok (mkIndexed (map CStr ix) cs
                (map (fun i => map (fun c => (c, pivot_cell obs i c)) cs)
                     ix))
        else Raise (ValueError
                      "Index contains duplicate entries, cannot reshape")
      else Raise (KeyError values)
    else Raise (KeyError columns)
  else Raise (KeyError index).

(** [t.reindex(columns=cols, fill_value=fill)]: columns in the order of
    [cols]; a column the table lacks is created, filled with [fill]. *)
Definition reindex_columns (cols : list string) (fill : cell)
    (t : Indexed) : Indexed :=
  mkIndexed (ix_index t) cols
    (map (fun r : Row =>
            map (fun c => (c, if decide (c ∈ ix_columns t)
                              then row_get c r else fill)) cols)
         (ix_rows t)).

(** Python's rendering of a list of strings, ['a', 'b']. *)
Definition py_list_repr (l : list string) : string :=
  "[" +:+ String.concat ", " (map (fun s => "'" +:+ s +:+ "'") l) +:+ "]".

(** [t[cols]]: columns in the order of [cols].  Labels the table lacks are
    one KeyError for all of them; it carries the labels not found, written
    as Python writes a list.  (The words that pandas puts around them
    depend on its version and on whether any label was found; they are not
    modelled.) *)
Definition select_columns (cols : list string) (t : Indexed)
  : result Indexed :=
  match filter (fun c => c ∉ ix_columns t) cols with
  | [] => Ok (mkIndexed (ix_index t) cols
                (map (fun r : Row => map (fun c => (c, row_get c r)) cols)
                     (ix_rows t)))
  | missing => Raise (KeyError (py_list_repr missing))
  end.

(** [gpd.points_from_xy(xs, ys)] *)
Definition points_from_xy (xs ys : list F) : result (list cell) :=
  if decide (length xs = length ys)
  then Ok (zip_with CPoint xs ys)
  else Raise (ValueError "x and y arrays must be equal length").

(** [gpd.GeoDataFrame(d, geometry=g)]: the columns of the dict [d] and the
    geometry column. *)
Definition GeoDataFrame (d : list (string * list cell)) (g : list cell)
  : result DataFrame :=
  from_dict (d ++ [("geometry", g)]).

End Pd.
End Pd.

(* ===================================================================== *)
(** ** The outside world *)
(* ===================================================================== *)

Module Env.
Section Env.
Context {F : Type}.

(** The [current] and [location] objects of a WeatherAPI answer whose
    fields are numbers, as the service documents them; a field the answer
    lacks is [None].  Answers with fields of other kinds are the subject of
    module [Untyped] below, of which this is the numeric case. *)
Record Current : Type := mkCurrent {
  temp_c : option F;
  precip_mm : option F;
  wind_kph : option F;
  wind_degree : option F
}.

Record Location : Type := mkLocation {
  lat : option F;
  lon : option F
}.

Record Body : Type := mkBody {
  current : option Current;
  location : option Location
}.

(** What [requests.get] hands back: a status code and a body that
    [response.json()] decodes or rejects. *)
Record Response : Type := mkResponse {
  status_code : Z;
  json : result Body
}.

Record World `{Float64 F} : Type := mkWorld {
  (* requests.get(url, params={'key':, 'q':, 'aqi':}) *)
  requests_get : string → list (string * string) → result Response;
  (* datetime.now().strftime('%b') at the k-th reading of the clock *)
  now_month : nat → string;
  (* gpd.read_file(path) *)
  gpd_read_file : string → result (Pd.DataFrame (F:=F));
  (* pd.read_csv(path) *)
  pd_read_csv : string → result (Pd.DataFrame (F:=F));
  (* the k-th draw of np.random.normal(loc, scale) *)
  normal_draw : F → F → nat → F;
  (* the k-th draw of np.random.gamma(shape, scale) *)
  gamma_draw : F → F → nat → F
}.

(** [response.raise_for_status()] *)
Definition raise_for_status (r : Response) : result unit :=
  if decide (400 ≤ status_code r < 600)%Z
  then Raise (HTTPError (status_code r))
  else Ok tt.

(** [d[k]] on a decoded JSON object. *)
Definition getitem {A} (k : string) (field : option A) : result A :=
  match field with
  | Some a => Ok a
  | None => Raise (KeyError k)
  end.

End Env.
End Env.

Export Env.
Export Pd.

(* ===================================================================== *)
(** ** dashboard-with-API.py *)
(* ===================================================================== *)

Module DashboardAPI.
Section DashboardAPI.
Context {F : Type} `{Float64 F}.

Abbreviation DataFrame := (Pd.DataFrame (F:=F)).
Abbreviation Row := (Pd.Row (F:=F)).

(** City to state, in the insertion order of the dict. *)
Definition STATE_NAMES : list (string * string) :=
  [ ("Mumbai", "Maharashtra");
    ("Delhi", "Delhi");
    ("Bangalore", "Karnataka");
    ("Chennai", "Tamil Nadu");
    ("Jaipur", "Rajasthan");
    ("Lucknow", "Uttar Pradesh");
    ("Kolkata", "West Bengal") ].

Definition api_key : string := "YOUR_API_KEY".
Definition base_url : string := "http://api.weatherapi.com/v1/current.json".

Definition num (q : Q) : cell := CNum (f_lit q).

Definition _load_india_shapefile (w : World) : result DataFrame :=
  try_except
    (gpd_read_file w "data/processed/india_states.shp")
    (fun _ =>
       let State := map snd STATE_NAMES in
       let Latitude : list F :=
         map f_lit [19.7515; 28.7041; 15.3173; 13.0827;
                    27.0238; 26.8467; 22.9868]%Q in
       let Longitude : list F :=
         map f_lit [75.7139; 77.1025; 75.7139; 80.2707;
                    74.2179; 80.9462; 87.8550]%Q in
       geometry ← points_from_xy Longitude Latitude;
       GeoDataFrame [ ("State", map CStr State);
                      ("Latitude", map CNum Latitude);
                      ("Longitude", map CNum Longitude) ]
                    geometry).

(** The dict returned by a successful fetch. *)
Record Weather : Type := mkWeather {
  w_temp_c : F;
  w_precip_mm : F;
  w_wind_kph : F;
  w_wind_degree : F;
  w_lat : F;
  w_lon : F
}.

Definition _fetch_api_data (w : World) (city : string)
  : result (option Weather) :=
  try_except
    (let params := [("key", api_key); ("q", city); ("aqi", "no")] in
     response ← requests_get w base_url params;
     _ ← raise_for_status response;
     data ← json response;
     cur ← getitem "current" (current data);
     t ← getitem "temp_c" (temp_c cur);
     cur ← getitem "current" (current data);
     p ← getitem "precip_mm" (precip_mm cur);
     cur ← getitem "current" (current data);
     k ← getitem "wind_kph" (wind_kph cur);
     cur ← getitem "current" (current data);
     d ← getitem "wind_degree" (wind_degree cur);
     loc ← getitem "location" (location data);
     la ← getitem "lat" (lat loc);
     loc ← getitem "location" (location data);
     lo ← getitem "lon" (lon loc);
     Ok (Some (mkWeather t p k d la lo)))
    (fun _ => Ok None).

(** The three lists filled by the loop over the cities, and the number of
    clock readings made so far. *)
Record Collected : Type := mkCollected {
  temp_data : list Row;
  rain_data : list Row;
  wind_data : list Row;
  clock_reads : nat
}.

(** One iteration of [for city, state in STATE_NAMES.items()]. *)
Definition collect_city (w : World) (acc : Collected)
    (item : string * string) : result Collected :=
  let '(city, state) := item in
  weather ← _fetch_api_data w city;
  match weather with
  | Some weather =>
      let month := now_month w (clock_reads acc) in
      Ok (mkCollected
            (temp_data acc ++
               [[ ("State", CStr state);
                  ("Month", CStr month);
                  ("Avg_Temp", CNum (w_temp_c weather));
                  ("Latitude", CNum (w_lat weather));
                  ("Longitude", CNum (w_lon weather)) ]])
            (rain_data acc ++
               [[ ("State", CStr state);
                  ("Month", CStr month);
                  ("Rainfall", CNum (w_precip_mm weather)) ]])
            (wind_data acc ++
               [[ ("State", CStr state);
                  ("U", CNum (f_mul (w_wind_kph weather)
                           (f_cos (f_radians (w_wind_degree weather)))));
                  ("V", CNum (f_mul (w_wind_kph weather)
                           (f_sin (f_radians (w_wind_degree weather)))));
                  ("Latitude", CNum (w_lat weather));
                  ("Longitude", CNum (w_lon weather)) ]])
            (S (clock_reads acc)))
  | None => Ok acc
  end.

Fixpoint collect (w : World) (acc : Collected)
    (items : list (string * string)) : result Collected :=
  match items with
  | [] => Ok acc
  | item :: items' =>
      acc' ← collect_city w acc item;
      collect w acc' items'
  end.

Definition months : list string :=
  ["Jan"; "Feb"; "Mar"; "Apr"; "May"; "Jun";
   "Jul"; "Aug"; "Sep"; "Oct"; "Nov"; "Dec"].

(** [len(states)] as the float it becomes in arithmetic. *)
Definition f_nat (n : nat) : F := f_lit (inject_Z (Z.of_nat n)).

(** The dict [temp_data] of the generator. *)
Definition sample_temp_data : list (string * list cell) :=
  let states := map snd STATE_NAMES in
  [ ("State", map CStr (Np.repeat states 12));
    ("Month", map CStr (list_times months (length states)));
    ("Avg_Temp",
       map (fun x => CNum (f_add (f_lit 25) (f_mul (f_lit 10) (f_sin x))))
           (map (fun x => f_mul x (f_nat (length states)))
                (Np.linspace (f_lit 0) (f_mul (f_lit 2) f_pi) 12)));
    ("Latitude",
       map CNum (Np.repeat
                   (map f_lit [19.7; 28.7; 15.3; 13.1; 27.0; 26.8; 22.9]%Q)
                   12)) ].

(** The dict [rain_data] of the generator. *)
Definition sample_rain_data : list (string * list cell) :=
  let states := map snd STATE_NAMES in
  [ ("State", map CStr (Np.repeat states 12));
    ("Month", map CStr (list_times months (length states)));
    ("Rainfall",
       map (fun x => CNum (f_mul (f_lit 50)
                      (f_add (f_lit 1) (f_mul (f_lit 0.5) (f_sin x)))))
           (map (fun x => f_mul x (f_nat (length states)))
                (Np.linspace (f_lit 0) (f_mul (f_lit 2) f_pi) 12))) ].

Definition _generate_sample_data
  : result (DataFrame * DataFrame * option DataFrame) :=
  t ← from_dict sample_temp_data;
  r ← from_dict sample_rain_data;
  Ok (t, r, None).

Definition load_weather_data (w : World) (use_api : bool)
  : result (DataFrame * DataFrame * option DataFrame) :=
  if use_api then
    acc ← collect w (mkCollected [] [] [] 0) STATE_NAMES;
    Ok (from_records (temp_data acc),
        from_records (rain_data acc),
        Some (from_records (wind_data acc)))
  else
    try_except_FileNotFoundError
      (t ← pd_read_csv w "data/processed/temperature_data.csv";
       r ← pd_read_csv w "data/processed/rainfall_data.csv";
       Ok (t, r, None))
      _generate_sample_data.

(** The table [merged] of [plot_temperature_heatmap]. *)
Definition merged (india_states temp_df : DataFrame) : result DataFrame :=
  means ← groupby_mean "State" "Avg_Temp" temp_df;
  merge_left "State" "Avg_Temp" india_states means.

Definition ordered_months : list string :=
  ["Jan"; "Feb"; "Mar"; "Apr"; "May"; "Jun";
   "Jul"; "Aug"; "Sep"; "Oct"; "Nov"; "Dec"].

(** The table [rain_pivot] of [plot_rainfall_patterns], as handed to the
    heatmap. *)
Definition rain_pivot (rain_df : DataFrame) : result Indexed :=
  rain_pivot ← pivot "State" "Month" "Rainfall" rain_df;
  Ok (reindex_columns ordered_months (num 0) rain_pivot).

(** [plot_wind_patterns]: the files written and the outcome.  What
    matplotlib and geopandas do past the guard (figure, quiver, boundary
    plot, savefig) is not modelled: [render] stands for that tail, and says
    which files it wrote and how it ended for the table it is given. *)
Definition plot_wind_patterns
    (render : DataFrame → list string * result unit)
    (wind_df : option DataFrame) : list string * result unit :=
  match wind_df with
  | None => ([], Ok tt)
  | Some df => if df_empty df then ([], Ok tt) else render df
  end.

End DashboardAPI.
End DashboardAPI.

(* ===================================================================== *)
(** ** dashboard.py *)
(* ===================================================================== *)

Module Dashboard.
Section Dashboard.
Context {F : Type} `{Float64 F}.

Abbreviation DataFrame := (Pd.DataFrame (F:=F)).

Definition states : list string :=
  ["Maharashtra"; "Delhi"; "Karnataka"; "Tamil Nadu";
   "Rajasthan"; "Uttar Pradesh"; "West Bengal"].

Definition months : list string :=
  ["Jan"; "Feb"; "Mar"; "Apr"; "May"; "Jun";
   "Jul"; "Aug"; "Sep"; "Oct"; "Nov"; "Dec"].

Definition _load_india_shapefile (w : World) : result DataFrame :=
  try_except
    (gpd_read_file w "data/processed/india_states.shp")
    (fun _ =>
       let Latitude : list F :=
         map f_lit [19.7515; 28.7041; 15.3173; 11.1271;
                    27.0238; 26.8467; 22.9868]%Q in
       let Longitude : list F :=
         map f_lit [75.7139; 77.1025; 75.7139; 78.6569;
                    74.2179; 80.9462; 87.8550]%Q in
       geometry ← points_from_xy Longitude Latitude;
       GeoDataFrame
         [ ("State", map CStr states);
           ("Latitude", map CNum Latitude);
           ("Longitude", map CNum Longitude) ]
         geometry).

(** [np.random.normal(loc, scale, size)] and [np.random.gamma(shape, scale,
    size)]: [size] successive draws of the generator. *)
Definition random_normal (w : World) (loc scale : F) (size : nat) : list F :=
  map (normal_draw w loc scale) (seq 0 size).

Definition random_gamma (w : World) (shape scale : F) (size : nat) : list F :=
  map (gamma_draw w shape scale) (seq 0 size).

(** [np.tile(np.sin(np.linspace(0, 2 * np.pi, 12)), len(states))] *)
Definition seasonal_wave : list F :=
  Np.tile (map f_sin (Np.linspace (f_lit 0) (f_mul (f_lit 2) f_pi) 12))
          (length states).

(** The body of the [except FileNotFoundError] clause of
    [load_weather_data]. *)
Definition generate_sample_data (w : World)
  : result (DataFrame * DataFrame) :=
  let size := (length states * 12)%nat in
  let temp_data :=
    [ ("State", map CStr (Np.repeat states 12));
      ("Month", map CStr (list_times months (length states)));
      ("Avg_Temp", map CNum (random_normal w (f_lit 25) (f_lit 5) size));
      ("Latitude",
         map CNum (Np.repeat
                     (map f_lit [19.7; 28.7; 15.3; 11.1; 27.0; 26.8; 22.9]%Q)
                     12)) ] in
  let rain_data :=
    [ ("State", map CStr (Np.repeat states 12));
      ("Month", map CStr (list_times months (length states)));
      ("Rainfall", map CNum (random_gamma w (f_lit 2) (f_lit 50) size)) ] in
  temp_df ← from_dict temp_data;
  rain_df ← from_dict rain_data;
  (* temp_df['Avg_Temp'] += 10 * wave *)
  temp_df ← update_column "Avg_Temp" f_add
              (map (fun x => f_mul (f_lit 10) x) seasonal_wave) temp_df;
  (* rain_df['Rainfall'] *= (1 + 0.5 * wave) *)
  rain_df ← update_column "Rainfall" f_mul
              (map (fun x => f_add (f_lit 1) (f_mul (f_lit 0.5) x))
                   seasonal_wave) rain_df;
  Ok (temp_df, rain_df).

Definition load_weather_data (w : World) : result (DataFrame * DataFrame) :=
  try_except_FileNotFoundError
    (temp_df ← pd_read_csv w "data/processed/temperature_data.csv";
     rain_df ← pd_read_csv w "data/processed/rainfall_data.csv";
     Ok (temp_df, rain_df))
    (generate_sample_data w).

(** The table [merged] of [plot_temperature_heatmap]. *)
Definition merged (india_states temp_df : DataFrame) : result Indexed :=
  means ← groupby_mean "State" "Avg_Temp" temp_df;
  set_index_join "State" "Avg_Temp" india_states means.

(** The table [rain_pivot] of [plot_rainfall_patterns], as handed to the
    heatmap. *)
Definition rain_pivot (rain_df : DataFrame) : result Indexed :=
  rain_pivot ← pivot "State" "Month" "Rainfall" rain_df;
  select_columns ["Jan"; "Feb"; "Mar"; "Apr"; "May"; "Jun";
                  "Jul"; "Aug"; "Sep"; "Oct"; "Nov"; "Dec"] rain_pivot.

(** [plot_wind_patterns]: the files written and the outcome.  As in the
    other script, [render] stands for the plotting calls that follow the
    read (figure, quiver, boundary plot, savefig). *)
Definition plot_wind_patterns
    (render : DataFrame → list string * result unit)
    (w : World) : list string * result unit :=
  match pd_read_csv w "data/processed/wind_data.csv" with
  | Raise FileNotFoundError => ([], Ok tt)
  | Raise e => ([], Raise e)
  | Ok wind_df => render wind_df
  end.

End Dashboard.
End Dashboard.

(* ===================================================================== *)
(** ** dashboard-with-API.py over answers of any JSON kind *)
(* ===================================================================== *)

Module Untyped.
Section Untyped.
Context {F : Type} `{Float64 F}.

(** What [response.json()] may hold in a field: a number, a string or
    null (Python's [None]).  Booleans, arrays and objects are not
    modelled. *)
Inductive value : Type :=
| JNum (x : F)
| JStr (s : string)
| JNull.

Record Current : Type := mkCurrent {
  temp_c : option value;
  precip_mm : option value;
  wind_kph : option value;
  wind_degree : option value
}.

Record Location : Type := mkLocation {
  lat : option value;
  lon : option value
}.

Record Body : Type := mkBody {
  current : option Current;
  location : option Location
}.

Record Response : Type := mkResponse {
  status_code : Z;
  json : result Body
}.

(** The endpoint and the clock. *)
Record World : Type := mkWorld {
  requests_get : string → list (string * string) → result Response;
  now_month : nat → string
}.

Definition raise_for_status (r : Response) : result unit :=
  if decide (400 ≤ status_code r < 600)%Z
  then Raise (HTTPError (status_code r))
  else Ok tt.

(** The dict returned by a successful fetch: the six fields as found. *)
Record Weather : Type := mkWeather {
  w_temp_c : value;
  w_precip_mm : value;
  w_wind_kph : value;
  w_wind_degree : value;
  w_lat : value;
  w_lon : value
}.

Definition _fetch_api_data (w : World) (city : string)
  : result (option Weather) :=
  try_except
    (let params := [("key", DashboardAPI.api_key); ("q", city);
                    ("aqi", "no")] in
     response ← requests_get w DashboardAPI.base_url params;
     _ ← raise_for_status response;
     data ← json response;
     cur ← getitem "current" (current data);
     t ← getitem "temp_c" (temp_c cur);
     cur ← getitem "current" (current data);
     p ← getitem "precip_mm" (precip_mm cur);
     cur ← getitem "current" (current data);
     k ← getitem "wind_kph" (wind_kph cur);
     cur ← getitem "current" (current data);
     d ← getitem "wind_degree" (wind_degree cur);
     loc ← getitem "location" (location data);
     la ← getitem "lat" (lat loc);
     loc ← getitem "location" (location data);
     lo ← getitem "lon" (lon loc);
     Ok (Some (mkWeather t p k d la lo)))
    (fun _ => Ok None).

(** A field as it sits in a table. *)
Definition value_cell (v : value) : Pd.cell (F:=F) :=
  match v with
  | JNum x => CNum x
  | JStr s => CStr s
  | JNull => CNaN
  end.

(** [np.radians(v)]: a number is needed. *)
Definition np_radians (v : value) : result F :=
  match v with
  | JNum x => Ok (f_radians x)
  | _ => Raise TypeError
  end.

(** [v * y] for a NumPy float [y]: a number is needed. *)
Definition py_mul (v : value) (y : F) : result F :=
  match v with
  | JNum x => Ok (f_mul x y)
  | _ => Raise TypeError
  end.

Record Collected : Type := mkCollected {
  temp_data : list (Pd.Row (F:=F));
  rain_data : list (Pd.Row (F:=F));
  wind_data : list (Pd.Row (F:=F));
  clock_reads : nat
}.

(** One iteration of [for city, state in STATE_NAMES.items()]. *)
Definition collect_city (w : World) (acc : Collected)
    (item : string * string) : result Collected :=
  let '(city, state) := item in
  weather ← _fetch_api_data w city;
  match weather with
  | Some weather =>
      let month := now_month w (clock_reads acc) in
      let temp_data :=
        temp_data acc ++
          [[ ("State", CStr state);
             ("Month", CStr month);
             ("Avg_Temp", value_cell (w_temp_c weather));
             ("Latitude", value_cell (w_lat weather));
             ("Longitude", value_cell (w_lon weather)) ]] in
      let rain_data :=
        rain_data acc ++
          [[ ("State", CStr state);
             ("Month", CStr month);
             ("Rainfall", value_cell (w_precip_mm weather)) ]] in
      angle ← np_radians (w_wind_degree weather);
      U ← py_mul (w_wind_kph weather) (f_cos angle);
      angle ← np_radians (w_wind_degree weather);
      V ← py_mul (w_wind_kph weather) (f_sin angle);
      Ok (mkCollected temp_data rain_data
            (wind_data acc ++
               [[ ("State", CStr state);
                  ("U", CNum U);
                  ("V", CNum V);
                  ("Latitude", value_cell (w_lat weather));
                  ("Longitude", value_cell (w_lon weather)) ]])
            (S (clock_reads acc)))
  | None => Ok acc
  end.

Fixpoint collect (w : World) (acc : Collected)
    (items : list (string * string)) : result Collected :=
  match items with
  | [] => Ok acc
  | item :: items' =>
      acc' ← collect_city w acc item;
      collect w acc' items'
  end.

(** [load_weather_data(use_api=True)] *)
Definition load_weather_data (w : World)
  : result (Pd.DataFrame (F:=F) * Pd.DataFrame (F:=F)
            * option (Pd.DataFrame (F:=F))) :=
  acc ← collect w (mkCollected [] [] [] 0) DashboardAPI.STATE_NAMES;
  Ok (from_records (temp_data acc),
      from_records (rain_data acc),
      Some (from_records (wind_data acc))).

(** Are the two fields of the wind computation numbers? *)
Definition wind_numeric (weather : Weather) : bool :=
  match w_wind_kph weather, w_wind_degree weather with
  | JNum _, JNum _ => true
  | _, _ => false
  end.

(** An answer with numeric fields, seen as an answer of any kind. *)
Definition of_numeric_response (r : Env.Response (F:=F)) : Response :=
  mkResponse (Env.status_code r)
    (body ← Env.json r;
     Ok (mkBody
           ((fun c => mkCurrent (JNum <$> Env.temp_c c)
                                (JNum <$> Env.precip_mm c)
                                (JNum <$> Env.wind_kph c)
                                (JNum <$> Env.wind_degree c))
              <$> Env.current body)
           ((fun l => mkLocation (JNum <$> Env.lat l) (JNum <$> Env.lon l))
              <$> Env.location body))).

Definition of_numeric_weather (x : DashboardAPI.Weather (F:=F)) : Weather :=
  mkWeather (JNum (DashboardAPI.w_temp_c x))
            (JNum (DashboardAPI.w_precip_mm x))
            (JNum (DashboardAPI.w_wind_kph x))
            (JNum (DashboardAPI.w_wind_degree x))
            (JNum (DashboardAPI.w_lat x))
            (JNum (DashboardAPI.w_lon x)).

Definition of_numeric_world (w : Env.World) : World :=
  mkWorld
    (fun url params =>
       r ← Env.requests_get w url params; Ok (of_numeric_response r))
    (Env.now_month w).

End Untyped.
End Untyped.

(* ===================================================================== *)
(** ** A symbolic float type, for running the model on concrete inputs *)
(* ===================================================================== *)

(** Float expressions left uninterpreted: every operation is a constructor. *)
#[local] Set Warnings "-register-all".
Inductive fexpr : Type :=
| FLit (q : Q)
| FAdd (a b : fexpr)
| FSub (a b : fexpr)
| FMul (a b : fexpr)
| FDiv (a b : fexpr)
| FPi
| FSin (a : fexpr)
| FCos (a : fexpr)
| FRadians (a : fexpr)
| FMean (l : list fexpr).
#[local] Set Warnings "+register-all".

Global Instance fexpr_float : Float64 fexpr := {|
  f_lit := FLit; f_add := FAdd; f_sub := FSub; f_mul := FMul;
  f_div := FDiv; f_pi := FPi;
  f_sin := FSin; f_cos := FCos; f_radians := FRadians; f_mean := FMean
|}.

(* ===================================================================== *)
(** ** Vocabulary of the statements *)
(* ===================================================================== *)

Module Spec.
Section Spec.
Context {F : Type} `{Float64 F}.

(** Did the fetch for [city] deliver data? *)
Definition fetch_ok (w : World) (city : string) : bool :=
  match DashboardAPI._fetch_api_data w city with
  | Ok (Some _) => true
  | _ => false
  end.


(** The (state, month) pair of every row of a long table. *)
Definition state_month_pairs (df : Pd.DataFrame (F:=F))
  : list (string * string) :=
  omap (fun r => s ← row_label "State" r;
                 m ← row_label "Month" r;
                 Some (s, m))
       (df_rows df).

(** The twelve angles at which the season is sampled,
    [np.linspace(0, 2 * np.pi, 12)]. *)
Definition season_angles : list F :=
  Np.linspace (f_lit 0) (f_mul (f_lit 2) f_pi) 12.

(** The seasonal terms of dashboard.py for month number [k] (0 is Jan):
    what is added to a temperature draw, and what multiplies a rainfall
    draw. *)
Definition temp_season (k : nat) : F :=
  f_mul (f_lit 10) (f_sin (nth k season_angles (f_lit 0))).

Definition rain_season (k : nat) : F :=
  f_add (f_lit 1) (f_mul (f_lit 0.5) (f_sin (nth k season_angles (f_lit 0)))).







End Spec.
End Spec.

Export Spec.


(* ===================================================================== *)
(** ** Concrete worlds, over symbolic floats *)
(* ===================================================================== *)

Module Worlds.

Definition answer (t p k d la lo : Q) : Response (F:=fexpr) :=
  mkResponse 200
    (Ok (mkBody
           (Some (mkCurrent (Some (FLit t)) (Some (FLit p))
                            (Some (FLit k)) (Some (FLit d))))
           (Some (mkLocation (Some (FLit la)) (Some (FLit lo)))))).

(** A cached temperature file and a cached rainfall file, two rows each,
    the months of the second in reverse order. *)
Definition cached_temperature : Pd.DataFrame (F:=fexpr) :=
  mkDataFrame ["State"; "Month"; "Avg_Temp"]
    [ [("State", CStr "Delhi"); ("Month", CStr "Jan");
       ("Avg_Temp", CNum (FLit 14))];
      [("State", CStr "Delhi"); ("Month", CStr "Feb");
       ("Avg_Temp", CNum (FLit 17))] ].

Definition cached_rainfall : Pd.DataFrame (F:=fexpr) :=
  mkDataFrame ["State"; "Month"; "Rainfall"]
    [ [("State", CStr "Delhi"); ("Month", CStr "Feb");
       ("Rainfall", CNum (FLit 22))];
      [("State", CStr "Delhi"); ("Month", CStr "Jan");
       ("Rainfall", CNum (FLit 19))] ].

Definition read_cached (path : string) : result (Pd.DataFrame (F:=fexpr)) :=
  if decide (path = "data/processed/temperature_data.csv")
  then Ok cached_temperature
  else if decide (path = "data/processed/rainfall_data.csv")
  then Ok cached_rainfall
  else Raise FileNotFoundError.

Definition draw (a b : fexpr) (k : nat) : fexpr :=
  FLit (inject_Z (Z.of_nat k)).

(** No network, no files. *)
Definition offline : World :=
  mkWorld _
    (fun _ _ => Raise ConnectionError)
    (fun _ => "Nov")
    (fun _ => Raise FileNotFoundError)
    (fun _ => Raise FileNotFoundError)
    draw draw.

(** No network, but the two cached CSV files are there. *)
Definition offline_cached : World :=
  mkWorld _
    (fun _ _ => Raise ConnectionError)
    (fun _ => "Nov")
    (fun _ => Raise FileNotFoundError)
    read_cached
    draw draw.

(** The cached files exist but may not be read. *)
Definition locked : World :=
  mkWorld _
    (fun _ _ => Raise ConnectionError)
    (fun _ => "Nov")
    (fun _ => Raise PermissionError)
    (fun _ => Raise PermissionError)
    draw draw.

(** The endpoint answers for every city but Mumbai, for which it reports
    status 503. *)
Definition mumbai_down : World :=
  mkWorld _
    (fun _ params =>
       if decide (assoc "q" params = Some "Mumbai")
       then Ok (mkResponse 503 (Raise JSONDecodeError))
       else Ok (answer 21.5 0 12 270 20 80))
    (fun _ => "Nov")
    (fun _ => Raise FileNotFoundError)
    (fun _ => Raise FileNotFoundError)
    draw draw.



End Worlds.

(* ===================================================================== *)
(** ** More of the two scripts, and vocabulary for their properties *)
(* ===================================================================== *)

Module Style.

(** [_set_visual_style] of dashboard-with-API.py: the name handed to
    [plt.style.use], given [plt.style.available]. *)
Definition _set_visual_style (available_styles : list string) : string :=
  if decide ("seaborn-v0_8" ∈ available_styles) then "seaborn-v0_8"
  else if decide ("ggplot" ∈ available_styles) then "ggplot"
  else "classic".

End Style.

Module Tables.
Section Tables.
Context {F : Type} `{Float64 F}.

(** [t.loc[s, m]]: the cell of an indexed table in the row labelled [s]
    and the column [m]; [None] when there is no such row or column. *)
Definition ix_cell (t : Pd.Indexed (F:=F)) (s m : string)
  : option (Pd.cell (F:=F)) :=
  match list_find (fun p : Pd.cell (F:=F) * Pd.Row (F:=F) =>
                     cell_label p.1 = Some s)
                  (zip (ix_index t) (ix_rows t)) with
  | Some (_, p) =>
      if decide (m ∈ ix_columns t) then Some (row_get m p.2) else None
  | None => None
  end.

(** A long table in which every row has a string in [State] and in
    [Month]: the tables the two scripts build themselves, and a cached CSV
    file without blanks in these two columns. *)
Definition string_labelled (df : Pd.DataFrame (F:=F)) : bool :=
  forallb (fun r : Pd.Row (F:=F) =>
             match row_label "State" r, row_label "Month" r with
             | Some _, Some _ => true
             | _, _ => false
             end)
          (df_rows df).

(** The observations that [plot_rainfall_patterns] pivots. *)
Definition rain_observations (rain_df : Pd.DataFrame (F:=F))
  : list (string * string * Pd.cell (F:=F)) :=
  omap (observation "State" "Month" "Rainfall") (df_rows rain_df).

(** The cities whose fetch delivered data, each with its state, the month
    read from the clock for it and the data, in dict order; [k] clock
    readings precede. *)
Fixpoint fetched (w : World) (k : nat) (items : list (string * string))
  : list (string * string * DashboardAPI.Weather (F:=F)) :=
  match items with
  | [] => []
  | (city, state) :: items' =>
      match DashboardAPI._fetch_api_data w city with
      | Ok (Some weather) =>
          (state, now_month w k, weather) :: fetched w (S k) items'
      | _ => fetched w k items'
      end
  end.

(** The three dicts that the loop of [load_weather_data] appends for a
    city that delivered [weather], in state [state], at month [month]. *)
Definition temp_record (e : string * string * DashboardAPI.Weather (F:=F))
  : Pd.Row (F:=F) :=
  [ ("State", CStr e.1.1);
    ("Month", CStr e.1.2);
    ("Avg_Temp", CNum (DashboardAPI.w_temp_c e.2));
    ("Latitude", CNum (DashboardAPI.w_lat e.2));
    ("Longitude", CNum (DashboardAPI.w_lon e.2)) ].

Definition rain_record (e : string * string * DashboardAPI.Weather (F:=F))
  : Pd.Row (F:=F) :=
  [ ("State", CStr e.1.1);
    ("Month", CStr e.1.2);
    ("Rainfall", CNum (DashboardAPI.w_precip_mm e.2)) ].

Definition wind_record (e : string * string * DashboardAPI.Weather (F:=F))
  : Pd.Row (F:=F) :=
  [ ("State", CStr e.1.1);
    ("U", CNum (f_mul (DashboardAPI.w_wind_kph e.2)
             (f_cos (f_radians (DashboardAPI.w_wind_degree e.2)))));
    ("V", CNum (f_mul (DashboardAPI.w_wind_kph e.2)
             (f_sin (f_radians (DashboardAPI.w_wind_degree e.2)))));
    ("Latitude", CNum (DashboardAPI.w_lat e.2));
    ("Longitude", CNum (DashboardAPI.w_lon e.2)) ].

End Tables.
End Tables.

Export Tables.

Module Scenarios.

(** Every city answers; the clock reads November throughout. *)
Definition online : World :=
  mkWorld _
    (fun _ _ => Ok (Worlds.answer 21.5 7.5 12 270 20 80))
    (fun _ => "Nov")
    (fun _ => Raise FileNotFoundError)
    (fun _ => Raise FileNotFoundError)
    Worlds.draw Worlds.draw.

(** A rainfall table with a gap: Delhi has January and March, Karnataka
    has January only, and nobody has February. *)
Definition gappy_rainfall : Pd.DataFrame (F:=fexpr) :=
  mkDataFrame ["State"; "Month"; "Rainfall"]
    [ [("State", CStr "Karnataka"); ("Month", CStr "Jan");
       ("Rainfall", CNum (FLit 3))];
      [("State", CStr "Delhi"); ("Month", CStr "Mar");
       ("Rainfall", CNum (FLit 11))];
      [("State", CStr "Delhi"); ("Month", CStr "Jan");
       ("Rainfall", CNum (FLit 19))] ].

(** A rainfall table with one state and all twelve months, December
    first. *)
Definition full_year_rainfall : Pd.DataFrame (F:=fexpr) :=
  mkDataFrame ["State"; "Month"; "Rainfall"]
    (map (fun m => [("State", CStr "Delhi"); ("Month", CStr m);
                    ("Rainfall", CNum (FLit 5))])
         (reverse DashboardAPI.ordered_months)).

(** A rainfall table that records Delhi's January twice. *)
Definition doubled_rainfall : Pd.DataFrame (F:=fexpr) :=
  mkDataFrame ["State"; "Month"; "Rainfall"]
    [ [("State", CStr "Delhi"); ("Month", CStr "Jan");
       ("Rainfall", CNum (FLit 19))];
      [("State", CStr "Delhi"); ("Month", CStr "Jan");
       ("Rainfall", CNum (FLit 21))] ].

(** As [Worlds.offline], with other random draws. *)
Definition other_draw (a b : fexpr) (k : nat) : fexpr :=
  FLit (inject_Z (Z.of_nat (S k))).

Definition offline_other_draws : World :=
  mkWorld _
    (fun _ _ => Raise ConnectionError)
    (fun _ => "Nov")
    (fun _ => Raise FileNotFoundError)
    (fun _ => Raise FileNotFoundError)
    other_draw other_draw.

(** The wind CSV is there but has no bytes: [pd.read_csv] raises
    EmptyDataError. *)
Definition wind_csv_zero_bytes : World :=
  mkWorld _
    (fun _ _ => Raise ConnectionError)
    (fun _ => "Nov")
    (fun _ => Raise FileNotFoundError)
    (fun path => if decide (path = "data/processed/wind_data.csv")
                 then Raise EmptyDataError else Raise FileNotFoundError)
    Worlds.draw Worlds.draw.

(** A wind table with its header line and no row. *)
Definition header_only_wind : Pd.DataFrame (F:=fexpr) :=
  mkDataFrame ["State"; "U"; "V"; "Latitude"; "Longitude"] [].

Definition wind_csv_header_only : World :=
  mkWorld _
    (fun _ _ => Raise ConnectionError)
    (fun _ => "Nov")
    (fun _ => Raise FileNotFoundError)
    (fun path => if decide (path = "data/processed/wind_data.csv")
                 then Ok header_only_wind else Raise FileNotFoundError)
    Worlds.draw Worlds.draw.

(** A wind table of one row. *)
Definition one_row_wind : Pd.DataFrame (F:=fexpr) :=
  mkDataFrame ["State"; "U"; "V"; "Latitude"; "Longitude"]
    [ [("State", CStr "Delhi"); ("U", CNum (FLit 3)); ("V", CNum (FLit 4));
       ("Latitude", CNum (FLit 28)); ("Longitude", CNum (FLit 77))] ].

(** Plotting calls that go through and save the figure. *)
Definition savefig_ok (wind_df : Pd.DataFrame (F:=fexpr))
  : list string * result unit :=
  (["assets/wind_patterns.png"], Ok tt).

(** An answer of the endpoint with the six fields as given. *)
Definition untyped_answer (t p k d la lo : Untyped.value (F:=fexpr))
  : Untyped.Response (F:=fexpr) :=
  Untyped.mkResponse 200
    (Ok (Untyped.mkBody
           (Some (Untyped.mkCurrent (Some t) (Some p) (Some k) (Some d)))
           (Some (Untyped.mkLocation (Some la) (Some lo))))).

(** The endpoint reports status 503 for Mumbai, answers for Delhi with
    [wind_kph] null, and answers with numbers for every other city. *)
Definition delhi_null_wind : Untyped.World (F:=fexpr) :=
  Untyped.mkWorld
    (fun _ params =>
       if decide (assoc "q" params = Some "Mumbai")
       then Ok (Untyped.mkResponse 503 (Raise JSONDecodeError))
       else if decide (assoc "q" params = Some "Delhi")
       then Ok (untyped_answer
                  (Untyped.JNum (FLit 21.5)) (Untyped.JNum (FLit 0))
                  Untyped.JNull (Untyped.JNum (FLit 270))
                  (Untyped.JNum (FLit 28.6)) (Untyped.JNum (FLit 77.2)))
       else Ok (untyped_answer
                  (Untyped.JNum (FLit 21.5)) (Untyped.JNum (FLit 0))
                  (Untyped.JNum (FLit 12)) (Untyped.JNum (FLit 270))
                  (Untyped.JNum (FLit 20)) (Untyped.JNum (FLit 80))))
    (fun _ => "Nov").

End Scenarios.

(* ===================================================================== *)
(** ** Lemmas on the Python and pandas model *)
(* ===================================================================== *)

Section ModelLemmas.
Context {F : Type} `{Float64 F}.

Lemma assoc_tabulate {B} (g : string → B) (cols : list string) (k : string) :
  k ∈ cols → assoc k (map (fun c => (c, g c)) cols) = Some (g k).
Proof.
  induction cols as [|c cols IH]; simpl; intros Hin.
  - by apply elem_of_nil in Hin.
  - destruct (decide (k = c)) as [->|Hne]; [done|].
    apply IH. apply elem_of_cons in Hin as [?|?]; done.
Qed.

Lemma assoc_None_not_key {B} (k : string) (d : list (string * B)) :
  k ∉ map fst d → assoc k d = None.
Proof.
  induction d as [|[k' v] d IH]; simpl; [done|].
  intros Hk. rewrite decide_False.
  - apply IH. intros Hin. apply Hk. by right.
  - intros ->. apply Hk. by left.
Qed.

Lemma record_keys_spec (recs : list (Pd.Row (F:=F))) (k : string) :
  k ∈ record_keys recs ↔ ∃ r, r ∈ recs ∧ k ∈ map fst r.
Proof.
  unfold record_keys.
  rewrite elem_of_remove_dups, list_elem_of_In, in_flat_map.
  split; intros (r & Hr & Hk); exists r.
  - by rewrite !list_elem_of_In.
  - by rewrite <- !list_elem_of_In.
Qed.

Lemma omap_label_column (key : string) (rows : list (Pd.Row (F:=F))) :
  omap cell_label (map (row_get key) rows) = omap (row_label key) rows.
Proof.
  induction rows as [|r rows IH]; [done|].
  cbn [map omap list_omap]. rewrite IH. reflexivity.
Qed.

Lemma omap_label_no_key (key : string) (rows : list (Pd.Row (F:=F))) :
  (∀ r, r ∈ rows → key ∉ map fst r) → omap (row_label key) rows = [].
Proof.
  induction rows as [|r rows IH]; intros Hno; [done|].
  cbn [omap list_omap]. unfold row_label at 1, row_get.
  rewrite assoc_None_not_key by (apply Hno; by left). simpl.
  apply IH. intros r' Hr'. apply Hno. by right.
Qed.

(** The states of a frame built from records are the state labels of the
    records, in order. *)
Lemma states_of_from_records (recs : list (Pd.Row (F:=F))) :
  states_of (from_records recs) = omap (row_label "State") recs.
Proof.
  unfold states_of, column, from_records; simpl.
  case_decide as Hin.
  - rewrite map_map, <- omap_label_column. f_equal.
    apply map_ext. intros r. unfold row_get.
    by rewrite assoc_tabulate.
  - symmetry. apply omap_label_no_key. intros r Hr Hk.
    apply Hin, record_keys_spec. eauto.
Qed.

End ModelLemmas.

(* ===================================================================== *)
(** ** API mode: which states reach the tables *)
(* ===================================================================== *)

Section ApiMode.
Context {F : Type} `{Float64 F}.
Import DashboardAPI.

(** [_fetch_api_data] swallows every exception. *)
Lemma fetch_never_raises (w : World) (city : string) :
  ∃ o, _fetch_api_data w city = Ok o.
Proof.
  unfold _fetch_api_data, try_except.
  destruct (_ ≫= _) as [o|e]; eauto.
Qed.

(** A request that raises, or an error status, is a failed fetch. *)
Lemma fetch_fails_on_request_error (w : World) (city : string) (e : exn) :
  requests_get w base_url [("key", api_key); ("q", city); ("aqi", "no")]
    = Raise e →
  _fetch_api_data w city = Ok None.
Proof. unfold _fetch_api_data. intros ->. reflexivity. Qed.

Lemma fetch_fails_on_error_status (w : World) (city : string)
    (r : Response) :
  requests_get w base_url [("key", api_key); ("q", city); ("aqi", "no")]
    = Ok r →
  (400 ≤ status_code r < 600)%Z →
  _fetch_api_data w city = Ok None.
Proof.
  unfold _fetch_api_data. intros -> Hst. cbn.
  unfold raise_for_status. rewrite decide_True by done. reflexivity.
Qed.

Lemma fetch_ok_false_iff (w : World) (city : string) :
  fetch_ok w city = false ↔ _fetch_api_data w city = Ok None.
Proof.
  unfold fetch_ok. destruct (fetch_never_raises w city) as [[x|] ->];
    split; intros; congruence.
Qed.






(** No two cities share a state. *)
Lemma STATE_NAMES_city_of_state (c1 c2 s : string) :
  (c1, s) ∈ STATE_NAMES → (c2, s) ∈ STATE_NAMES → c1 = c2.
Proof.
  unfold STATE_NAMES. rewrite !elem_of_cons, !elem_of_nil.
  intros H1 H2.
  repeat (destruct H1 as [H1|H1]; [injection H1 as -> ->|]);
    try contradiction;
    repeat (destruct H2 as [H2|H2]; [try discriminate H2|]);
    try contradiction; try (by injection H2).
Qed.

End ApiMode.

(* ===================================================================== *)
(** ** Claims about API mode *)
(* ===================================================================== *)

Section ApiClaims.
Context {F : Type} `{Float64 F}.
Import DashboardAPI.


End ApiClaims.


Example mumbai_down_states :
  ∃ t r wd,
    DashboardAPI.load_weather_data Worlds.mumbai_down true
      = Ok (t, r, Some wd) ∧
    states_of t = ["Delhi"; "Karnataka"; "Tamil Nadu"; "Rajasthan";
                   "Uttar Pradesh"; "West Bengal"] ∧
    states_of r = states_of t ∧ states_of wd = states_of t.
Proof.
  eexists _, _, _. split; [vm_compute; reflexivity|].
  split; [vm_compute; reflexivity|]. split; vm_compute; reflexivity.
Qed.

(* ===================================================================== *)
(** ** API mode over answers of any JSON kind *)
(* ===================================================================== *)

Section UntypedApi.
Context {F : Type} `{Float64 F}.
Import DashboardAPI.

(** [_fetch_api_data] swallows every exception, whatever the answer
    holds. *)
Lemma untyped_fetch_never_raises (w : Untyped.World (F:=F)) (city : string) :
  ∃ o, Untyped._fetch_api_data w city = Ok o.
Proof.
  unfold Untyped._fetch_api_data, try_except.
  destruct (_ ≫= _) as [o|e]; eauto.
Qed.

(** One iteration of the loop: a city without data leaves the lists as
    they are; a city with data and numeric wind fields adds one row to each
    list, labelled with its state; a city with data and another kind of
    wind field raises TypeError. *)
Lemma untyped_collect_city_cases (w : Untyped.World (F:=F)) (acc : Untyped.Collected (F:=F))
    (city state : string) :
  (Untyped._fetch_api_data w city = Ok None ∧
   Untyped.collect_city w acc (city, state) = Ok acc) ∨
  (∃ weather acc',
     Untyped._fetch_api_data w city = Ok (Some weather) ∧
     Untyped.wind_numeric weather = true ∧
     Untyped.collect_city w acc (city, state) = Ok acc' ∧
     omap (row_label "State") (Untyped.temp_data acc')
       = omap (row_label "State") (Untyped.temp_data acc) ++ [state] ∧
     omap (row_label "State") (Untyped.rain_data acc')
       = omap (row_label "State") (Untyped.rain_data acc) ++ [state] ∧
     omap (row_label "State") (Untyped.wind_data acc')
       = omap (row_label "State") (Untyped.wind_data acc) ++ [state]) ∨
  (∃ weather,
     Untyped._fetch_api_data w city = Ok (Some weather) ∧
     Untyped.wind_numeric weather = false ∧
     Untyped.collect_city w acc (city, state) = Raise TypeError).
Proof.
  cbn [Untyped.collect_city].
  destruct (untyped_fetch_never_raises w city) as [[weather|] Hf]; rewrite Hf.
  2:{ left. done. }
  right. cbn [mbind result_bind Py.bind].
  destruct (Untyped.w_wind_degree weather) as [d| |] eqn:Hd;
    destruct (Untyped.w_wind_kph weather) as [k| |] eqn:Hk; cbn.
  1:{ left. eexists weather, _. split; [done|].
      split; [unfold Untyped.wind_numeric; by rewrite Hd, Hk|].
      split; [reflexivity|]. cbn. rewrite !omap_app. done. }
  all: right; exists weather; split; [done|];
    split; [unfold Untyped.wind_numeric; by rewrite Hd, Hk|done].
Qed.

(** The loop: when it returns, every state in the three lists was there
    before or belongs to a city of [items] that delivered data; when it
    raises, it raises TypeError, for a city that delivered a wind field
    that is no number; it returns when there is no such city, and raises
    when there is one. *)
Lemma untyped_collect_spec (w : Untyped.World (F:=F))
    (items : list (string * string)) (acc : Untyped.Collected (F:=F)) :
  (∀ acc', Untyped.collect w acc items = Ok acc' →
     ∀ s, (s ∈ omap (row_label "State") (Untyped.temp_data acc') ∨
           s ∈ omap (row_label "State") (Untyped.rain_data acc') ∨
           s ∈ omap (row_label "State") (Untyped.wind_data acc')) →
          (s ∈ omap (row_label "State") (Untyped.temp_data acc) ∨
           s ∈ omap (row_label "State") (Untyped.rain_data acc) ∨
           s ∈ omap (row_label "State") (Untyped.wind_data acc)) ∨
          ∃ city weather, (city, s) ∈ items ∧
            Untyped._fetch_api_data w city = Ok (Some weather)) ∧
  (∀ e, Untyped.collect w acc items = Raise e →
     e = TypeError ∧
     ∃ city state weather, (city, state) ∈ items ∧
       Untyped._fetch_api_data w city = Ok (Some weather) ∧
       Untyped.wind_numeric weather = false) ∧
  ((∀ city state weather, (city, state) ∈ items →
      Untyped._fetch_api_data w city = Ok (Some weather) →
      Untyped.wind_numeric weather = true) →
   ∃ acc', Untyped.collect w acc items = Ok acc') ∧
  ((∃ city state weather, (city, state) ∈ items ∧
      Untyped._fetch_api_data w city = Ok (Some weather) ∧
      Untyped.wind_numeric weather = false) →
   Untyped.collect w acc items = Raise TypeError).
Proof.
  induction items as [|[city state] items IH] in acc |- *.
  { cbn. split; [|split; [|split]]; [|done|eauto|].
    - intros acc' [= <-] s Hs. by left.
    - intros (c & st & x & Hin & _). by apply elem_of_nil in Hin. }
  cbn [Untyped.collect].
  destruct (untyped_collect_city_cases w acc city state)
    as [[Hf ->]|[(weather & acc1 & Hf & Hnum & -> & Ht & Hr & Hw)
                |(weather & Hf & Hnum & ->)]];
    cbn [mbind result_bind Py.bind].
  - destruct (IH acc) as (IHok & IHraise & IHret & IHbad).
    split; [|split; [|split]].
    + intros acc' Hc s Hs. destruct (IHok acc' Hc s Hs) as [?|HH]; [by left|].
      right. destruct HH as (c & x & Hin & Hfc). exists c, x.
      split; [by right|done].
    + intros e He. destruct (IHraise e He) as (-> & c & st & x & Hin & Hfc & Hx).
      split; [done|]. exists c, st, x. split; [by right|done].
    + intros Hall. apply IHret. intros c st x Hin. apply (Hall c st x).
      by right.
    + intros (c & st & x & Hin & Hfc & Hx). apply IHbad.
      apply elem_of_cons in Hin as [[= -> ->]|Hin]; [congruence|].
      by exists c, st, x.
  - destruct (IH acc1) as (IHok & IHraise & IHret & IHbad).
    split; [|split; [|split]].
    + intros acc' Hc s Hs. destruct (IHok acc' Hc s Hs) as [Hold|HH].
      * rewrite Ht, Hr, Hw in Hold. rewrite !elem_of_app in Hold.
        rewrite !list_elem_of_singleton in Hold.
        assert (s = state ∨
                (s ∈ omap (row_label "State") (Untyped.temp_data acc) ∨
                 s ∈ omap (row_label "State") (Untyped.rain_data acc) ∨
                 s ∈ omap (row_label "State") (Untyped.wind_data acc)))
          as [->|?] by tauto; [|by left].
        right. exists city, weather. split; [by left|done].
      * right. destruct HH as (c & x & Hin & Hfc). exists c, x.
        split; [by right|done].
    + intros e He. destruct (IHraise e He) as (-> & c & st & x & Hin & Hfc & Hx).
      split; [done|]. exists c, st, x. split; [by right|done].
    + intros Hall. apply IHret. intros c st x Hin. apply (Hall c st x).
      by right.
    + intros (c & st & x & Hin & Hfc & Hx). apply IHbad.
      apply elem_of_cons in Hin as [[= -> ->]|Hin]; [congruence|].
      by exists c, st, x.
  - split; [|split; [|split]].
    + intros acc' Hc. discriminate Hc.
    + intros e [= <-]. split; [done|]. exists city, state, weather.
      split; [by left|done].
    + intros Hall. exfalso.
      specialize (Hall city state weather ltac:(by left) Hf). congruence.
    + done.
Qed.

(** On answers with numeric fields the fetch is that of the numeric
    model. *)
Lemma untyped_fetch_numeric (w : World) (city : string) :
  Untyped._fetch_api_data (Untyped.of_numeric_world w) city
  = match _fetch_api_data w city with
    | Ok o => Ok (Untyped.of_numeric_weather <$> o)
    | Raise e => Raise e
    end.
Proof.
  unfold Untyped._fetch_api_data, _fetch_api_data, Untyped.of_numeric_world.
  cbn [Untyped.requests_get].
  destruct (requests_get w _ _) as [response|e]; [|done].
  cbn [mbind result_bind Py.bind].
  unfold Untyped.raise_for_status, raise_for_status,
    Untyped.of_numeric_response. cbn [Untyped.status_code Untyped.json].
  case_decide as Hst; [done|]. cbn [mbind result_bind Py.bind].
  destruct (json response) as [data|e]; [|done].
  cbn [mbind result_bind Py.bind Untyped.current Untyped.location].
  destruct (current data) as [cur|]; [|done]. cbn.
  destruct (temp_c cur) as [t|]; [|done]. cbn.
  destruct (precip_mm cur) as [p|]; [|done]. cbn.
  destruct (wind_kph cur) as [k|]; [|done]. cbn.
  destruct (wind_degree cur) as [d|]; [|done]. cbn.
  destruct (location data) as [loc|]; [|done]. cbn.
  destruct (lat loc) as [la|]; [|done]. cbn.
  destruct (lon loc) as [lo|]; done.
Qed.

(** On answers with numeric fields the whole of API mode is that of the
    numeric model, in which it always returns. *)
Lemma untyped_load_numeric (w : World) :
  Untyped.load_weather_data (Untyped.of_numeric_world w)
  = load_weather_data w true.
Proof.
  unfold Untyped.load_weather_data, load_weather_data.
  assert (∀ items acc,
            Untyped.collect (Untyped.of_numeric_world w)
              (Untyped.mkCollected (temp_data acc) (rain_data acc)
                 (wind_data acc) (clock_reads acc)) items
            = match collect w acc items with
              | Ok acc' => Ok (Untyped.mkCollected (temp_data acc')
                                 (rain_data acc') (wind_data acc')
                                 (clock_reads acc'))
              | Raise e => Raise e
              end) as Hcollect.
  { induction items as [|[city state] items IH]; intros acc; [done|].
    cbn [Untyped.collect collect Untyped.collect_city collect_city].
    rewrite untyped_fetch_numeric.
    destruct (_fetch_api_data w city) as [[weather|]|e];
      cbn; [|apply IH|done].
    apply (IH (mkCollected _ _ _ _)). }
  pose proof (Hcollect STATE_NAMES (mkCollected [] [] [] 0)) as Hc.
  cbn [temp_data rain_data wind_data clock_reads] in Hc. rewrite Hc.
  by destruct (collect w _ STATE_NAMES).
Qed.

(** C2, as the code has it.  For a city of [STATE_NAMES] whose fetch
    delivers nothing: no fetch raises, whatever the endpoint answers;
    whenever [load_weather_data(use_api=True)] returns, it returns three
    tables and the city's state is in none of them; it returns whenever
    the [wind_kph] and [wind_degree] delivered for the other cities are
    numbers; it raises the TypeError of the wind computation exactly when
    some city delivers a [wind_kph] or [wind_degree] that is no number;
    and it raises nothing else. *)
Theorem C2_failed_city_absent (w : Untyped.World (F:=F)) (city state : string) :
  (city, state) ∈ STATE_NAMES →
  Untyped._fetch_api_data w city = Ok None →
  (∀ c, ∃ o, Untyped._fetch_api_data w c = Ok o) ∧
  (∀ t r wd, Untyped.load_weather_data w = Ok (t, r, wd) →
     ∃ wind, wd = Some wind ∧
       (state ∉ states_of t) ∧ (state ∉ states_of r) ∧
       (state ∉ states_of wind)) ∧
  ((∀ c s weather, (c, s) ∈ STATE_NAMES →
      Untyped._fetch_api_data w c = Ok (Some weather) →
      Untyped.wind_numeric weather = true) →
   ∃ t r wind, Untyped.load_weather_data w = Ok (t, r, Some wind)) ∧
  (Untyped.load_weather_data w = Raise TypeError ↔
   ∃ c s weather, (c, s) ∈ STATE_NAMES ∧
     Untyped._fetch_api_data w c = Ok (Some weather) ∧
     Untyped.wind_numeric weather = false) ∧
  (∀ e, Untyped.load_weather_data w = Raise e → e = TypeError).
Proof.
  intros Hin Hfail.
  destruct (untyped_collect_spec w STATE_NAMES (Untyped.mkCollected [] [] [] 0))
    as (Hok & Hraise & Hret & Hbad).
  unfold Untyped.load_weather_data.
  split; [apply untyped_fetch_never_raises|]. split; [|split; [|split]].
  - intros t r wd.
    destruct (Untyped.collect w _ STATE_NAMES) as [acc|e]; [|done].
    cbn. intros [= <- <- <-]. eexists. split; [reflexivity|].
    rewrite !states_of_from_records.
    assert (∀ s, (s ∈ omap (row_label "State") (Untyped.temp_data acc) ∨
                  s ∈ omap (row_label "State") (Untyped.rain_data acc) ∨
                  s ∈ omap (row_label "State") (Untyped.wind_data acc)) →
                 s ≠ state) as Hno.
    { intros s Hs ->.
      destruct (Hok acc eq_refl state Hs) as [Hold|(c & x & Hc & Hfc)].
      - cbn in Hold. rewrite !elem_of_nil in Hold. tauto.
      - rewrite (STATE_NAMES_city_of_state _ _ _ Hc Hin) in Hfc. congruence. }
    split_and!; intros Hs; by eapply Hno; eauto.
  - intros Hall. destruct (Hret Hall) as [acc ->]. cbn. eauto.
  - split.
    + destruct (Untyped.collect w _ STATE_NAMES) as [acc|e']; [done|].
      cbn. intros [= ->]. by apply (Hraise TypeError).
    + intros Hex. by rewrite (Hbad Hex).
  - intros e. destruct (Untyped.collect w _ STATE_NAMES) as [acc|e']; [done|].
    cbn. intros [= <-]. by apply Hraise.
Qed.

End UntypedApi.

(** C2 as stated fails: the fetch for Mumbai fails (status 503), Delhi
    answers with [wind_kph] null, and [load_weather_data(use_api=True)]
    raises TypeError at the wind computation for Delhi. *)
Lemma C2_null_field_escapes :
  ("Mumbai", "Maharashtra") ∈ DashboardAPI.STATE_NAMES ∧
  Untyped._fetch_api_data Scenarios.delhi_null_wind "Mumbai" = Ok None ∧
  Untyped._fetch_api_data Scenarios.delhi_null_wind "Delhi"
    = Ok (Some (Untyped.mkWeather
                  (Untyped.JNum (FLit 21.5)) (Untyped.JNum (FLit 0))
                  Untyped.JNull (Untyped.JNum (FLit 270))
                  (Untyped.JNum (FLit 28.6)) (Untyped.JNum (FLit 77.2)))) ∧
  Untyped.load_weather_data Scenarios.delhi_null_wind = Raise TypeError.
Proof.
  split; [by left|]. split; [reflexivity|]. split; reflexivity.
Qed.

Lemma C2_failed_city_absent_witness :
  ∃ t r wind,
    Untyped.load_weather_data (Untyped.of_numeric_world Worlds.mumbai_down)
      = Ok (t, r, Some wind) ∧
    ("Maharashtra" ∉ states_of t) ∧ ("Maharashtra" ∉ states_of r) ∧
    ("Maharashtra" ∉ states_of wind).
Proof.
  destruct (C2_failed_city_absent
              (Untyped.of_numeric_world Worlds.mumbai_down)
              "Mumbai" "Maharashtra")
    as (_ & Habsent & Hreturns & _ & _).
  - by left.
  - reflexivity.
  - destruct Hreturns as (t & r & wind & Hload).
    + intros c s weather Hc. unfold DashboardAPI.STATE_NAMES in Hc.
      repeat (apply elem_of_cons in Hc as [Hc|Hc];
              [injection Hc as -> ->; vm_compute;
               intros Hf; (discriminate Hf || (by injection Hf as <-))|]).
      by apply elem_of_nil in Hc.
    + exists t, r, wind. split; [exact Hload|].
      destruct (Habsent t r (Some wind) Hload) as (wind' & Hw & Hab).
      injection Hw as <-. exact Hab.
Defined.

(* ===================================================================== *)
(** ** Claims about the order of the data sources *)
(* ===================================================================== *)

Section SourceOrder.
Context {F : Type} `{Float64 F}.



(** C4, as the code has it.  In non-API mode a missing cached file (and
    nothing else) leads to the synthetic generator; any other failure to
    read a cached file leaves [load_weather_data] as the exception it is.
    Both scripts. *)
Theorem C4_only_missing_file_falls_through (w : World) :
  (pd_read_csv w "data/processed/temperature_data.csv"
     = Raise FileNotFoundError →
   DashboardAPI.load_weather_data w false
     = DashboardAPI._generate_sample_data ∧
   Dashboard.load_weather_data w = Dashboard.generate_sample_data w) ∧
  (∀ t, pd_read_csv w "data/processed/temperature_data.csv" = Ok t →
        pd_read_csv w "data/processed/rainfall_data.csv"
          = Raise FileNotFoundError →
        DashboardAPI.load_weather_data w false
          = DashboardAPI._generate_sample_data ∧
        Dashboard.load_weather_data w = Dashboard.generate_sample_data w) ∧
  (∀ e, e ≠ FileNotFoundError →
        pd_read_csv w "data/processed/temperature_data.csv" = Raise e →
        DashboardAPI.load_weather_data w false = Raise e ∧
        Dashboard.load_weather_data w = Raise e) ∧
  (∀ t e, e ≠ FileNotFoundError →
        pd_read_csv w "data/processed/temperature_data.csv" = Ok t →
        pd_read_csv w "data/processed/rainfall_data.csv" = Raise e →
        DashboardAPI.load_weather_data w false = Raise e ∧
        Dashboard.load_weather_data w = Raise e).
Proof.
  unfold DashboardAPI.load_weather_data, Dashboard.load_weather_data.
  split; [|split; [|split]].
  - by intros ->.
  - by intros t -> ->.
  - intros e Hne ->. by destruct e.
  - intros t e Hne -> ->. by destruct e.
Qed.

End SourceOrder.



(** C4 as stated fails: a cached file that exists but may not be read makes
    [load_weather_data] raise PermissionError, in both scripts. *)
Lemma C4_permission_error_propagates :
  pd_read_csv Worlds.locked "data/processed/temperature_data.csv"
    = Raise PermissionError ∧
  DashboardAPI.load_weather_data Worlds.locked false = Raise PermissionError ∧
  Dashboard.load_weather_data Worlds.locked = Raise PermissionError.
Proof. repeat split. Qed.

Lemma C4_only_missing_file_falls_through_witness :
  (DashboardAPI.load_weather_data Worlds.offline false
     = DashboardAPI._generate_sample_data ∧
   Dashboard.load_weather_data Worlds.offline
     = Dashboard.generate_sample_data Worlds.offline) ∧
  (DashboardAPI.load_weather_data Worlds.locked false
     = Raise PermissionError ∧
   Dashboard.load_weather_data Worlds.locked = Raise PermissionError).
Proof.
  split.
  - apply (C4_only_missing_file_falls_through Worlds.offline). reflexivity.
  - apply (C4_only_missing_file_falls_through Worlds.locked);
      [discriminate|reflexivity].
Defined.

(* ===================================================================== *)
(** ** Claims about the synthetic generator *)
(* ===================================================================== *)

Section Generator.
Context {F : Type} `{Float64 F}.

(** The generator of dashboard.py returns, and its two tables have 84 rows
    in which every (state, month) pair occurs exactly once. *)
Lemma Dashboard_sample_pairs_once (w : World) :
  ∃ t r, Dashboard.generate_sample_data w = Ok (t, r) ∧
    length (df_rows t) = 84%nat ∧ length (df_rows r) = 84%nat ∧
    state_month_pairs t = list_prod Dashboard.states Dashboard.months ∧
    state_month_pairs r = list_prod Dashboard.states Dashboard.months ∧
    NoDup (list_prod Dashboard.states Dashboard.months) ∧
    (∀ s m, s ∈ Dashboard.states → m ∈ Dashboard.months →
            (s, m) ∈ list_prod Dashboard.states Dashboard.months).
Proof.
  eexists _, _. split; [vm_compute; reflexivity|].
  split; [vm_compute; reflexivity|].
  split; [vm_compute; reflexivity|].
  split; [vm_compute; reflexivity|].
  split; [vm_compute; reflexivity|].
  split.
  - apply (bool_decide_unpack _). vm_compute. exact I.
  - intros s m Hs Hm. apply list_elem_of_In, in_prod; by apply list_elem_of_In.
Qed.

(** The arrays that dashboard-with-API.py hands to [pd.DataFrame]: the
    value arrays have 12 entries, the label arrays 84. *)
Lemma api_sample_array_lengths :
  map (fun kc => (kc.1, length kc.2)) (DashboardAPI.sample_temp_data (F:=F))
    = [("State", 84); ("Month", 84); ("Avg_Temp", 12); ("Latitude", 84)]%nat ∧
  map (fun kc => (kc.1, length kc.2)) (DashboardAPI.sample_rain_data (F:=F))
    = [("State", 84); ("Month", 84); ("Rainfall", 12)]%nat.
Proof. split; vm_compute; reflexivity. Qed.

(** The generator of dashboard-with-API.py raises, for every float type. *)
Lemma api_generator_raises :
  DashboardAPI._generate_sample_data (F:=F)
    = Raise (ValueError "All arrays must be of the same length").
Proof. vm_compute. reflexivity. Qed.

(** What one run of the generator of dashboard.py produces: label columns
    that are fixed, and value columns in which row [i] combines the [i]-th
    draw with the seasonal term of month [i mod 12]. *)
Lemma Dashboard_sample_shape (w : World) :
  ∃ t r, Dashboard.generate_sample_data w = Ok (t, r) ∧
    state_month_pairs t = list_prod Dashboard.states Dashboard.months ∧
    state_month_pairs r = list_prod Dashboard.states Dashboard.months ∧
    column "Avg_Temp" t
      = Ok (map (fun i : nat =>
                   CNum (f_add (normal_draw w (f_lit 25) (f_lit 5) i)
                               (temp_season (i mod 12))))
                (seq 0 84)) ∧
    column "Rainfall" r
      = Ok (map (fun i : nat =>
                   CNum (f_mul (gamma_draw w (f_lit 2) (f_lit 50) i)
                               (rain_season (i mod 12))))
                (seq 0 84)).
Proof.
  eexists _, _. split; [vm_compute; reflexivity|].
  split; [vm_compute; reflexivity|].
  split; [vm_compute; reflexivity|].
  split; vm_compute; reflexivity.
Qed.

(** The two tables of the generator of dashboard.py, row by row: row [i]
    belongs to state [i / 12] and month [i mod 12], and its value is the
    [i]-th draw combined with the seasonal term of that month. *)
Lemma Dashboard_sample_closed (w : World) :
  Dashboard.generate_sample_data w
  = Ok (mkDataFrame ["State"; "Month"; "Avg_Temp"; "Latitude"]
          (map (fun i : nat =>
                  [ ("State", CStr (nth (i / 12) Dashboard.states ""));
                    ("Month", CStr (nth (i mod 12) Dashboard.months ""));
                    ("Avg_Temp",
                       CNum (f_add (normal_draw w (f_lit 25) (f_lit 5) i)
                                   (temp_season (i mod 12))));
                    ("Latitude",
                       CNum (f_lit (nth (i / 12)
                                        [19.7; 28.7; 15.3; 11.1;
                                         27.0; 26.8; 22.9]%Q 0%Q))) ])
               (seq 0 84)),
        mkDataFrame ["State"; "Month"; "Rainfall"]
          (map (fun i : nat =>
                  [ ("State", CStr (nth (i / 12) Dashboard.states ""));
                    ("Month", CStr (nth (i mod 12) Dashboard.months ""));
                    ("Rainfall",
                       CNum (f_mul (gamma_draw w (f_lit 2) (f_lit 50) i)
                                   (rain_season (i mod 12)))) ])
               (seq 0 84))).
Proof. vm_compute. reflexivity. Qed.

Lemma Ok_inj {A} (a b : A) : Ok a = Ok b → a = b.
Proof. by intros [= ->]. Qed.

Lemma map_seq_eq_pointwise {A} (f g : nat → A) (n : nat) :
  map f (seq 0 n) = map g (seq 0 n) ↔ ∀ i, (i < n)%nat → f i = g i.
Proof.
  split.
  - intros Heq i Hi.
    apply (f_equal (fun l => nth_error l i)) in Heq.
    rewrite !nth_error_map, !nth_error_seq in Heq.
    destruct (Nat.ltb_spec i n) as [_|?]; [|lia].
    cbn in Heq. by injection Heq.
  - intros Hall. apply map_ext_in. intros i Hi%in_seq. apply Hall. lia.
Qed.

(** C8, as the code has it.  Two runs of the generator of dashboard.py,
    whatever the random draws of each: both return; the (state, month)
    labels are the same; the value in row [i] is that run's [i]-th draw
    combined (added for temperature, multiplied for rainfall) with a
    seasonal term that depends on the month [i mod 12] alone, with
    amplitudes 10 and 0.5 over the angles [linspace(0, 2 pi, 12)].  The
    draws are not fixed by any seed: the two temperature tables are equal
    exactly when the 84 noisy temperatures are, and likewise for rainfall.
    The value arrays of dashboard-with-API.py hold no noise. *)
Theorem C8_seasonal_shape_deterministic (w1 w2 : World) :
  ∃ t1 r1 t2 r2,
    Dashboard.generate_sample_data w1 = Ok (t1, r1) ∧
    Dashboard.generate_sample_data w2 = Ok (t2, r2) ∧
    state_month_pairs t1 = state_month_pairs t2 ∧
    state_month_pairs r1 = state_month_pairs r2 ∧
    column "Avg_Temp" t1
      = Ok (map (fun i : nat =>
                   CNum (f_add (normal_draw w1 (f_lit 25) (f_lit 5) i)
                               (temp_season (i mod 12))))
                (seq 0 84)) ∧
    column "Avg_Temp" t2
      = Ok (map (fun i : nat =>
                   CNum (f_add (normal_draw w2 (f_lit 25) (f_lit 5) i)
                               (temp_season (i mod 12))))
                (seq 0 84)) ∧
    column "Rainfall" r1
      = Ok (map (fun i : nat =>
                   CNum (f_mul (gamma_draw w1 (f_lit 2) (f_lit 50) i)
                               (rain_season (i mod 12))))
                (seq 0 84)) ∧
    column "Rainfall" r2
      = Ok (map (fun i : nat =>
                   CNum (f_mul (gamma_draw w2 (f_lit 2) (f_lit 50) i)
                               (rain_season (i mod 12))))
                (seq 0 84)) ∧
    (t1 = t2 ↔
     ∀ i, (i < 84)%nat →
       f_add (normal_draw w1 (f_lit 25) (f_lit 5) i) (temp_season (i mod 12))
       = f_add (normal_draw w2 (f_lit 25) (f_lit 5) i)
               (temp_season (i mod 12))) ∧
    (r1 = r2 ↔
     ∀ i, (i < 84)%nat →
       f_mul (gamma_draw w1 (f_lit 2) (f_lit 50) i) (rain_season (i mod 12))
       = f_mul (gamma_draw w2 (f_lit 2) (f_lit 50) i)
               (rain_season (i mod 12))) ∧
    assoc "Avg_Temp" DashboardAPI.sample_temp_data
      = Some (map (fun x => CNum (f_add (f_lit 25) (f_mul (f_lit 10)
                             (f_sin (f_mul x (f_lit 7))))))
                  season_angles) ∧
    assoc "Rainfall" DashboardAPI.sample_rain_data
      = Some (map (fun x => CNum (f_mul (f_lit 50) (f_add (f_lit 1)
                             (f_mul (f_lit 0.5) (f_sin (f_mul x (f_lit 7)))))))
                  season_angles).
Proof.
  eexists _, _, _, _.
  split; [apply Dashboard_sample_closed|].
  split; [apply Dashboard_sample_closed|].
  do 6 (split; [vm_compute; reflexivity|]).
  split; [|split; [|split; vm_compute; reflexivity]].
  - split.
    + intros Heq i Hi. apply (f_equal df_rows) in Heq. cbn [df_rows] in Heq.
      pose proof (proj1 (map_seq_eq_pointwise _ _ _) Heq i Hi) as Hrow.
      cbn beta in Hrow. by injection Hrow.
    + intros Hall. f_equal.
      apply map_ext_in. intros i Hi%in_seq. by rewrite Hall by lia.
  - split.
    + intros Heq i Hi. apply (f_equal df_rows) in Heq. cbn [df_rows] in Heq.
      pose proof (proj1 (map_seq_eq_pointwise _ _ _) Heq i Hi) as Hrow.
      cbn beta in Hrow. by injection Hrow.
    + intros Hall. f_equal.
      apply map_ext_in. intros i Hi%in_seq. by rewrite Hall by lia.
Qed.

End Generator.

(** C3, on dashboard-with-API.py.  The generator does not produce the two
    84-row tables: it hands [pd.DataFrame] value arrays of 12 entries next
    to label arrays of 84, which raises ValueError; so does non-API mode
    when no cached file is present.  (The generator of dashboard.py does
    produce them, see [Dashboard_sample_pairs_once].) *)
Theorem C3_api_generator_raises :
  (∀ (F : Type) (ops : Float64 F),
     DashboardAPI._generate_sample_data (F:=F)
       = Raise (ValueError "All arrays must be of the same length")) ∧
  pd_read_csv Worlds.offline "data/processed/temperature_data.csv"
    = Raise FileNotFoundError ∧
  DashboardAPI.load_weather_data Worlds.offline false
    = Raise (ValueError "All arrays must be of the same length").
Proof.
  split; [|split].
  - intros F ops. apply api_generator_raises.
  - reflexivity.
  - vm_compute. reflexivity.
Qed.

(** C8 as stated fails: no seed is set, and two runs of the generator of
    dashboard.py whose draws differ return different tables, already in
    their first row. *)
Lemma C8_unseeded_runs_differ :
  ∃ t1 r1 t2 r2,
    Dashboard.generate_sample_data Worlds.offline = Ok (t1, r1) ∧
    Dashboard.generate_sample_data Scenarios.offline_other_draws
      = Ok (t2, r2) ∧
    row_get "Avg_Temp" <$> head (df_rows t1)
      = Some (CNum (FAdd (FLit 0) (temp_season 0))) ∧
    row_get "Avg_Temp" <$> head (df_rows t2)
      = Some (CNum (FAdd (FLit 1) (temp_season 0))) ∧
    row_get "Rainfall" <$> head (df_rows r1)
      = Some (CNum (FMul (FLit 0) (rain_season 0))) ∧
    row_get "Rainfall" <$> head (df_rows r2)
      = Some (CNum (FMul (FLit 1) (rain_season 0))) ∧
    t1 ≠ t2 ∧ r1 ≠ r2.
Proof.
  eexists _, _, _, _.
  split; [vm_compute; reflexivity|]. split; [vm_compute; reflexivity|].
  split; [vm_compute; reflexivity|]. split; [vm_compute; reflexivity|].
  split; [vm_compute; reflexivity|]. split; [vm_compute; reflexivity|].
  split; intros Heq.
  - apply (f_equal (fun t => row_get "Avg_Temp" <$> head (df_rows t))) in Heq.
    vm_compute in Heq. discriminate Heq.
  - apply (f_equal (fun t => row_get "Rainfall" <$> head (df_rows t))) in Heq.
    vm_compute in Heq. discriminate Heq.
Qed.

Lemma C8_seasonal_shape_deterministic_witness :
  ∃ t r, Dashboard.generate_sample_data Worlds.offline = Ok (t, r) ∧
         Dashboard.generate_sample_data Worlds.offline_cached = Ok (t, r).
Proof.
  destruct (C8_seasonal_shape_deterministic Worlds.offline
              Worlds.offline_cached)
    as (t1 & r1 & t2 & r2 & H1 & H2 & _ & _ & _ & _ & _ & _ & Ht & Hr & _).
  rewrite <- (proj2 Ht) in H2 by reflexivity.
  rewrite <- (proj2 Hr) in H2 by reflexivity.
  exists t1, r1. split; assumption.
Defined.

(* ===================================================================== *)
(** ** Claims about the fallback geometry and the wind renderer *)
(* ===================================================================== *)

Section Fallbacks.
Context {F : Type} `{Float64 F}.

(** The fallback tables of the two scripts. *)
Lemma fallback_tables (w : World) (e : exn) :
  gpd_read_file w "data/processed/india_states.shp" = Raise e →
  DashboardAPI._load_india_shapefile w
    = Ok (mkDataFrame ["State"; "Latitude"; "Longitude"; "geometry"]
            (map (fun p : string * (Q * Q) =>
                    [ ("State", CStr p.1);
                      ("Latitude", CNum (f_lit p.2.1));
                      ("Longitude", CNum (f_lit p.2.2));
                      ("geometry", CPoint (f_lit p.2.2) (f_lit p.2.1)) ])
                 [ ("Maharashtra", (19.7515, 75.7139));
                   ("Delhi", (28.7041, 77.1025));
                   ("Karnataka", (15.3173, 75.7139));
                   ("Tamil Nadu", (13.0827, 80.2707));
                   ("Rajasthan", (27.0238, 74.2179));
                   ("Uttar Pradesh", (26.8467, 80.9462));
                   ("West Bengal", (22.9868, 87.8550)) ]%Q)) ∧
  Dashboard._load_india_shapefile w
    = Ok (mkDataFrame ["State"; "Latitude"; "Longitude"; "geometry"]
            (map (fun p : string * (Q * Q) =>
                    [ ("State", CStr p.1);
                      ("Latitude", CNum (f_lit p.2.1));
                      ("Longitude", CNum (f_lit p.2.2));
                      ("geometry", CPoint (f_lit p.2.2) (f_lit p.2.1)) ])
                 [ ("Maharashtra", (19.7515, 75.7139));
                   ("Delhi", (28.7041, 77.1025));
                   ("Karnataka", (15.3173, 75.7139));
                   ("Tamil Nadu", (11.1271, 78.6569));
                   ("Rajasthan", (27.0238, 74.2179));
                   ("Uttar Pradesh", (26.8467, 80.9462));
                   ("West Bengal", (22.9868, 87.8550)) ]%Q)).
Proof.
  intros He.
  unfold DashboardAPI._load_india_shapefile, Dashboard._load_india_shapefile.
  rewrite He. split; vm_compute; reflexivity.
Qed.

(** C7.  When reading the shapefile raises, [_load_india_shapefile] of
    either script returns a table of 7 rows in which each of the 7 states
    has exactly one row, made of the state name, a latitude, a longitude and
    the point geometry at that longitude and latitude. *)
Theorem C7_fallback_one_entry_per_state (w : World) (e : exn) :
  gpd_read_file w "data/processed/india_states.shp" = Raise e →
  ∃ api_gdf gdf,
    DashboardAPI._load_india_shapefile w = Ok api_gdf ∧
    Dashboard._load_india_shapefile w = Ok gdf ∧
    length (df_rows api_gdf) = 7%nat ∧ length (df_rows gdf) = 7%nat ∧
    ∀ city state, (city, state) ∈ DashboardAPI.STATE_NAMES →
      (∃ la lo, group_rows "State" state (df_rows api_gdf)
                = [[ ("State", CStr state); ("Latitude", CNum la);
                     ("Longitude", CNum lo); ("geometry", CPoint lo la) ]]) ∧
      (∃ la lo, group_rows "State" state (df_rows gdf)
                = [[ ("State", CStr state); ("Latitude", CNum la);
                     ("Longitude", CNum lo); ("geometry", CPoint lo la) ]]).
Proof.
  intros He. destruct (fallback_tables w e He) as [-> ->].
  eexists _, _. split; [reflexivity|]. split; [reflexivity|].
  split; [reflexivity|]. split; [reflexivity|].
  intros city state Hin. unfold DashboardAPI.STATE_NAMES in Hin.
  repeat (apply elem_of_cons in Hin as [Hin|Hin];
          [injection Hin as -> ->;
           split; eexists _, _; vm_compute; reflexivity|]).
  by apply elem_of_nil in Hin.
Qed.

(** C6, as the code has it.  Whatever the plotting calls past the guard
    do ([render]): the wind renderer of dashboard-with-API.py, given no
    table or an empty one, returns normally and writes no file, and plots
    any other table; the wind renderer of dashboard.py does so when the
    wind CSV is missing, plots whatever table the CSV yields (it has no
    test for emptiness), and lets any other failure to read the CSV
    escape, with nothing written. *)
Theorem C6_wind_skipped
    (render : Pd.DataFrame (F:=F) → list string * result unit) (w : World) :
  DashboardAPI.plot_wind_patterns render None = ([], Ok tt) ∧
  (∀ wind_df, df_empty wind_df = true →
     DashboardAPI.plot_wind_patterns render (Some wind_df) = ([], Ok tt)) ∧
  (∀ wind_df, df_empty wind_df = false →
     DashboardAPI.plot_wind_patterns render (Some wind_df)
     = render wind_df) ∧
  (pd_read_csv w "data/processed/wind_data.csv" = Raise FileNotFoundError →
   Dashboard.plot_wind_patterns render w = ([], Ok tt)) ∧
  (∀ wind_df, pd_read_csv w "data/processed/wind_data.csv" = Ok wind_df →
     Dashboard.plot_wind_patterns render w = render wind_df) ∧
  (∀ e, e ≠ FileNotFoundError →
     pd_read_csv w "data/processed/wind_data.csv" = Raise e →
     Dashboard.plot_wind_patterns render w = ([], Raise e)).
Proof.
  unfold DashboardAPI.plot_wind_patterns, Dashboard.plot_wind_patterns.
  split; [reflexivity|]. split; [by intros wind_df ->|].
  split; [by intros wind_df ->|]. split; [by intros ->|].
  split; [by intros wind_df ->|].
  intros e Hne ->. by destruct e.
Qed.

End Fallbacks.

Lemma C7_fallback_one_entry_per_state_witness :
  ∃ api_gdf gdf,
    DashboardAPI._load_india_shapefile Worlds.offline = Ok api_gdf ∧
    Dashboard._load_india_shapefile Worlds.offline = Ok gdf ∧
    length (df_rows api_gdf) = 7%nat ∧ length (df_rows gdf) = 7%nat ∧
    ∀ city state, (city, state) ∈ DashboardAPI.STATE_NAMES →
      (∃ la lo, group_rows "State" state (df_rows api_gdf)
                = [[ ("State", CStr state); ("Latitude", CNum la);
                     ("Longitude", CNum lo); ("geometry", CPoint lo la) ]]) ∧
      (∃ la lo, group_rows "State" state (df_rows gdf)
                = [[ ("State", CStr state); ("Latitude", CNum la);
                     ("Longitude", CNum lo); ("geometry", CPoint lo la) ]]).
Proof.
  apply (C7_fallback_one_entry_per_state Worlds.offline FileNotFoundError).
  reflexivity.
Defined.

(** C6 as stated fails for dashboard.py, which has no test for an empty
    table: a wind CSV without bytes makes [plot_wind_patterns] raise
    EmptyDataError, and a wind CSV with a header line and no row is handed
    to the plotting calls, where dashboard-with-API.py skips the same
    table. *)
Lemma C6_dashboard_has_no_empty_guard :
  pd_read_csv Scenarios.wind_csv_zero_bytes "data/processed/wind_data.csv"
    = Raise EmptyDataError ∧
  (∀ render,
     Dashboard.plot_wind_patterns render Scenarios.wind_csv_zero_bytes
     = ([], Raise EmptyDataError)) ∧
  pd_read_csv Scenarios.wind_csv_header_only "data/processed/wind_data.csv"
    = Ok Scenarios.header_only_wind ∧
  df_empty Scenarios.header_only_wind = true ∧
  (∀ render,
     Dashboard.plot_wind_patterns render Scenarios.wind_csv_header_only
     = render Scenarios.header_only_wind) ∧
  Dashboard.plot_wind_patterns Scenarios.savefig_ok
    Scenarios.wind_csv_header_only
    = (["assets/wind_patterns.png"], Ok tt) ∧
  (∀ render,
     DashboardAPI.plot_wind_patterns render (Some Scenarios.header_only_wind)
     = ([], Ok tt)).
Proof. by split_and!. Qed.

Lemma C6_wind_skipped_witness :
  DashboardAPI.plot_wind_patterns Scenarios.savefig_ok
    (Some (from_records (F:=fexpr) [])) = ([], Ok tt) ∧
  DashboardAPI.plot_wind_patterns Scenarios.savefig_ok
    (Some Scenarios.one_row_wind) = (["assets/wind_patterns.png"], Ok tt) ∧
  Dashboard.plot_wind_patterns Scenarios.savefig_ok Worlds.offline
    = ([], Ok tt) ∧
  Dashboard.plot_wind_patterns Scenarios.savefig_ok
    Scenarios.wind_csv_zero_bytes = ([], Raise EmptyDataError).
Proof.
  split_and!.
  - apply (C6_wind_skipped Scenarios.savefig_ok Worlds.offline). reflexivity.
  - apply (C6_wind_skipped Scenarios.savefig_ok Worlds.offline
             : _ ∧ _ ∧ (∀ wind_df, df_empty wind_df = false → _) ∧ _).
    reflexivity.
  - apply (C6_wind_skipped Scenarios.savefig_ok Worlds.offline). reflexivity.
  - apply (C6_wind_skipped Scenarios.savefig_ok
             Scenarios.wind_csv_zero_bytes);
      [discriminate|reflexivity].
Defined.

(* ===================================================================== *)
(** ** The geographic join *)
(* ===================================================================== *)

Section Join.
Context {F : Type} `{Float64 F}.


Lemma filter_none {A} (P : A → Prop) `{∀ x, Decision (P x)} (l : list A) :
  (∀ x, x ∈ l → ¬ P x) → filter P l = [].
Proof.
  induction l as [|x l IH]; intros Hno; [done|].
  rewrite filter_cons_False by (apply Hno; by left).
  apply IH. intros y Hy. apply Hno. by right.
Qed.


Lemma elem_of_sorted_labels (ls : list string) (s : string) :
  s ∈ sorted_labels ls ↔ s ∈ ls.
Proof.
  unfold sorted_labels.
  by rewrite merge_sort_Permutation, elem_of_remove_dups.
Qed.






End Join.


(* ===================================================================== *)
(** ** The rainfall pivot *)
(* ===================================================================== *)

Section Pivot.
Context {F : Type} `{Float64 F}.

(** Sorted distinct labels depend on the labels present, not on their
    order or multiplicity. *)
Lemma sorted_labels_Permutation (l1 l2 : list string) :
  l1 ≡ₚ l2 → sorted_labels l1 = sorted_labels l2.
Proof.
  intros Hp. unfold sorted_labels.
  apply (Sorted_unique String.le).
  - apply Sorted_merge_sort, _.
  - apply Sorted_merge_sort, _.
  - rewrite !merge_sort_Permutation.
    apply NoDup_Permutation; [apply NoDup_remove_dups..|].
    intros x. by rewrite !elem_of_remove_dups, Hp.
Qed.

Lemma NoDup_fst_functional {K V} (l : list (K * V)) (k : K) (v v' : V) :
  NoDup (map fst l) → (k, v) ∈ l → (k, v') ∈ l → v = v'.
Proof.
  induction l as [|o l IH]; intros Hnd Hv Hv'; [by apply elem_of_nil in Hv|].
  cbn in Hnd. apply NoDup_cons in Hnd as [Hno Hnd].
  apply elem_of_cons in Hv as [Hv|Hv]; apply elem_of_cons in Hv' as [Hv'|Hv'].
  - congruence.
  - exfalso. apply Hno. subst o. by apply (list_elem_of_fmap_2 fst) in Hv'.
  - exfalso. apply Hno. subst o. by apply (list_elem_of_fmap_2 fst) in Hv.
  - by apply IH.
Qed.

Lemma pivot_cell_elem_of (obs : list (string * string * Pd.cell (F:=F)))
    (i c : string) (v : Pd.cell (F:=F)) :
  NoDup (map fst obs) → (i, c, v) ∈ obs → pivot_cell obs i c = v.
Proof.
  unfold pivot_cell. intros Hnd Hin.
  destruct (list_find _ obs) as [[n [k v']]|] eqn:Hfind.
  - apply list_find_Some in Hfind as (Hn & Hk & _). simpl in Hk. subst k.
    simpl. apply list_elem_of_lookup_2 in Hn.
    by apply (NoDup_fst_functional obs (i, c)).
  - exfalso. apply list_find_None in Hfind.
    rewrite Forall_forall in Hfind. by apply (Hfind _ Hin).
Qed.

Lemma pivot_cell_not_elem_of (obs : list (string * string * Pd.cell (F:=F)))
    (i c : string) :
  (i, c) ∉ map fst obs → pivot_cell obs i c = CNaN.
Proof.
  unfold pivot_cell. intros Hno.
  destruct (list_find _ obs) as [[n [k v']]|] eqn:Hfind; [|done].
  exfalso. apply list_find_Some in Hfind as (Hn & Hk & _). simpl in Hk.
  subst k. apply Hno. apply list_elem_of_lookup_2 in Hn.
  by apply (list_elem_of_fmap_2 fst) in Hn.
Qed.

Lemma pivot_cell_Permutation
    (obs obs' : list (string * string * Pd.cell (F:=F))) (i c : string) :
  obs ≡ₚ obs' → NoDup (map fst obs) →
  pivot_cell obs i c = pivot_cell obs' i c.
Proof.
  intros Hp Hnd.
  assert (NoDup (map fst obs')) as Hnd' by by rewrite <- Hp.
  destruct (decide ((i, c) ∈ map fst obs)) as [Hin|Hno].
  - apply list_elem_of_fmap in Hin as ([k v] & Hk & Hin). simpl in Hk.
    subst k. rewrite (pivot_cell_elem_of obs i c v) by done.
    symmetry. apply pivot_cell_elem_of; [done|]. by rewrite <- Hp.
  - rewrite !pivot_cell_not_elem_of; [done| |done]. by rewrite <- Hp.
Qed.

(** [pivot] sees the rows of its argument as a bag. *)
Lemma pivot_Permutation (index columns values : string)
    (df df' : Pd.DataFrame (F:=F)) :
  df_columns df = df_columns df' →
  df_rows df ≡ₚ df_rows df' →
  pivot index columns values df = pivot index columns values df'.
Proof.
  intros Hc Hp. unfold pivot. cbv zeta. rewrite <- Hc.
  assert (omap (observation index columns values) (df_rows df)
          ≡ₚ omap (observation index columns values) (df_rows df')) as Ho
    by by rewrite Hp.
  set (obs := omap _ (df_rows df)) in *.
  set (obs' := omap _ (df_rows df')) in *.
  repeat case_decide; try done.
  - f_equal.
    assert (sorted_labels (map (fun o => o.1.1) obs)
            = sorted_labels (map (fun o => o.1.1) obs')) as ->
      by (apply sorted_labels_Permutation, Permutation_map, Ho).
    assert (sorted_labels (map (fun o => o.1.2) obs)
            = sorted_labels (map (fun o => o.1.2) obs')) as ->
      by (apply sorted_labels_Permutation, Permutation_map, Ho).
    f_equal. apply map_ext. intros i. apply map_ext. intros c.
    f_equal. by apply pivot_cell_Permutation.
  - exfalso. by rewrite Ho in *.
  - exfalso. by rewrite <- Ho in *.
Qed.

Lemma pivot_returns (index columns values : string)
    (df : Pd.DataFrame (F:=F)) :
  index ∈ df_columns df → columns ∈ df_columns df →
  values ∈ df_columns df →
  NoDup (map fst (omap (observation index columns values) (df_rows df))) →
  pivot index columns values df
  = let obs := omap (observation index columns values) (df_rows df) in
    let ix := sorted_labels (map (fun o => o.1.1) obs) in
    let cs := sorted_labels (map (fun o => o.1.2) obs) in
    Ok (mkIndexed (map CStr ix) cs
          (map (fun i => map (fun c => (c, pivot_cell obs i c)) cs) ix)).
Proof.
  intros Hi Hc Hv Hnd. unfold pivot. cbv zeta.
  by rewrite !decide_True.
Qed.

Lemma pivot_duplicates (index columns values : string)
    (df : Pd.DataFrame (F:=F)) :
  index ∈ df_columns df → columns ∈ df_columns df →
  values ∈ df_columns df →
  ¬ NoDup (map fst (omap (observation index columns values) (df_rows df))) →
  pivot index columns values df
  = Raise (ValueError "Index contains duplicate entries, cannot reshape").
Proof.
  intros Hi Hc Hv Hnd. unfold pivot. cbv zeta.
  rewrite !decide_True by done. by rewrite decide_False.
Qed.

(** Reading a cell of a table given row by row and column by column. *)
Lemma ix_cell_tabulated (ix cols : list string)
    (g : string → string → Pd.cell (F:=F)) (s m : string) :
  s ∈ ix → m ∈ cols →
  ix_cell (mkIndexed (map CStr ix) cols
             (map (fun i => map (fun c => (c, g i c)) cols) ix)) s m
  = Some (g s m).
Proof.
  intros Hs Hm. unfold ix_cell. cbn [ix_index ix_rows ix_columns].
  match goal with
  | |- context [list_find ?P ?l] =>
      assert (∃ n, list_find P l
                   = Some (n, (CStr s, map (fun c => (c, g s c)) cols)))
        as [n ->]
  end.
  { clear Hm. induction ix as [|i ix IH]; [by apply elem_of_nil in Hs|].
    cbn [map zip zip_with list_find fst cell_label].
    case_decide as Hi; [injection Hi as ->; eauto|].
    apply elem_of_cons in Hs as [->|Hs]; [done|].
    destruct (IH Hs) as [n ->]. cbn. eauto. }
  cbn. rewrite decide_True by done. unfold row_get.
  by rewrite assoc_tabulate.
Qed.

(** The table [rain_pivot] of dashboard-with-API.py in closed form. *)
Lemma api_rain_pivot_closed (rain_df : Pd.DataFrame (F:=F)) :
  "State" ∈ df_columns rain_df → "Month" ∈ df_columns rain_df →
  "Rainfall" ∈ df_columns rain_df →
  NoDup (map fst (rain_observations rain_df)) →
  DashboardAPI.rain_pivot rain_df
  = Ok (mkIndexed
          (map CStr (sorted_labels
                       (map (fun o => o.1.1) (rain_observations rain_df))))
          DashboardAPI.ordered_months
          (map (fun i =>
                  map (fun c =>
                         (c, if decide (c ∈ map (fun o => o.1.2)
                                              (rain_observations rain_df))
                             then pivot_cell (rain_observations rain_df) i c
                             else CNum (f_lit 0)))
                      DashboardAPI.ordered_months)
               (sorted_labels
                  (map (fun o => o.1.1) (rain_observations rain_df))))).
Proof.
  intros Hs Hm Hr Hnd. unfold DashboardAPI.rain_pivot.
  rewrite pivot_returns by done. cbv zeta. cbn [mbind result_bind Py.bind].
  unfold reindex_columns. cbn [ix_index ix_columns ix_rows].
  fold (rain_observations rain_df). do 2 f_equal.
  rewrite map_map. apply map_ext. intros i.
  apply map_ext. intros c. f_equal.
  destruct (decide (c ∈ map (fun o => o.1.2) (rain_observations rain_df)))
    as [Hin|Hout].
  - rewrite decide_True by (by apply elem_of_sorted_labels).
    unfold row_get.
    by rewrite assoc_tabulate by (by apply elem_of_sorted_labels).
  - by rewrite decide_False by (by rewrite elem_of_sorted_labels).
Qed.

Lemma rain_observations_pairs (rain_df : Pd.DataFrame (F:=F)) :
  map fst (rain_observations rain_df) = state_month_pairs rain_df.
Proof.
  unfold rain_observations, state_month_pairs, observation.
  induction (df_rows rain_df) as [|r rows IH]; [done|].
  cbn. destruct (row_label "State" r), (row_label "Month" r); cbn;
    by rewrite ?IH.
Qed.

Lemma elem_of_rain_observations (rain_df : Pd.DataFrame (F:=F))
    (row : Pd.Row (F:=F)) (s m : string) :
  row ∈ df_rows rain_df →
  row_label "State" row = Some s → row_label "Month" row = Some m →
  (s, m, row_get "Rainfall" row) ∈ rain_observations rain_df.
Proof.
  intros Hrow Hs Hm. apply list_elem_of_omap. exists row.
  split; [done|]. unfold observation. by rewrite Hs, Hm.
Qed.

Lemma observation_state_elem_of
    (obs : list (string * string * Pd.cell (F:=F))) (s m : string)
    (v : Pd.cell (F:=F)) :
  (s, m, v) ∈ obs → s ∈ sorted_labels (map (fun o => o.1.1) obs).
Proof.
  intros Hin. apply elem_of_sorted_labels.
  by apply (list_elem_of_fmap_2 (fun o : string * string * cell => o.1.1))
    in Hin.
Qed.

Lemma observation_month_elem_of
    (obs : list (string * string * Pd.cell (F:=F))) (s m : string)
    (v : Pd.cell (F:=F)) :
  (s, m, v) ∈ obs → m ∈ map (fun o => o.1.2) obs.
Proof.
  intros Hin.
  by apply (list_elem_of_fmap_2 (fun o : string * string * cell => o.1.2))
    in Hin.
Qed.

(** Where the pivot of dashboard-with-API.py puts the rainfall of a row,
    and what it puts where the data are silent. *)
Lemma api_rain_pivot_cell_found (rain_df : Pd.DataFrame (F:=F))
    (row : Pd.Row (F:=F)) (s m : string) :
  "State" ∈ df_columns rain_df → "Month" ∈ df_columns rain_df →
  "Rainfall" ∈ df_columns rain_df →
  NoDup (state_month_pairs rain_df) →
  row ∈ df_rows rain_df →
  row_label "State" row = Some s → row_label "Month" row = Some m →
  m ∈ DashboardAPI.ordered_months →
  ∃ t, DashboardAPI.rain_pivot rain_df = Ok t ∧
       ix_cell t s m = Some (row_get "Rainfall" row).
Proof.
  intros Hcs Hcm Hcr Hnd Hrow Hs Hm Hmon.
  rewrite <- rain_observations_pairs in Hnd.
  pose proof (elem_of_rain_observations _ _ _ _ Hrow Hs Hm) as Hobs.
  rewrite api_rain_pivot_closed by done. eexists. split; [reflexivity|].
  rewrite (ix_cell_tabulated _ _
             (fun i c => if decide (c ∈ map (fun o => o.1.2)
                                          (rain_observations rain_df))
                         then pivot_cell (rain_observations rain_df) i c
                         else CNum (f_lit 0)));
    [|by eapply observation_state_elem_of|done].
  rewrite decide_True by (by eapply observation_month_elem_of).
  f_equal. by apply pivot_cell_elem_of.
Qed.

Lemma api_rain_pivot_cell_gap (rain_df : Pd.DataFrame (F:=F)) (s m : string) :
  "State" ∈ df_columns rain_df → "Month" ∈ df_columns rain_df →
  "Rainfall" ∈ df_columns rain_df →
  NoDup (state_month_pairs rain_df) →
  s ∈ map fst (state_month_pairs rain_df) →
  m ∈ DashboardAPI.ordered_months →
  (s, m) ∉ state_month_pairs rain_df →
  ∃ t, DashboardAPI.rain_pivot rain_df = Ok t ∧
       ix_cell t s m
       = Some (if decide (m ∈ map snd (state_month_pairs rain_df))
               then CNaN else CNum (f_lit 0)).
Proof.
  intros Hcs Hcm Hcr Hnd Hs Hmon Hno.
  rewrite <- rain_observations_pairs in *.
  rewrite api_rain_pivot_closed by done. eexists. split; [reflexivity|].
  rewrite (ix_cell_tabulated _ _
             (fun i c => if decide (c ∈ map (fun o => o.1.2)
                                          (rain_observations rain_df))
                         then pivot_cell (rain_observations rain_df) i c
                         else CNum (f_lit 0))); [| |done].
  2:{ apply elem_of_sorted_labels. by rewrite map_map in Hs. }
  rewrite map_map. f_equal.
  destruct (decide (m ∈ _)) as [Hin|Hout]; [|done].
  by apply pivot_cell_not_elem_of.
Qed.

(** When every one of the twelve months occurs in the table, the column
    selection of dashboard.py yields what the reindexing of
    dashboard-with-API.py yields. *)
Lemma dashboard_rain_pivot_full_year (rain_df : Pd.DataFrame (F:=F)) :
  "State" ∈ df_columns rain_df → "Month" ∈ df_columns rain_df →
  "Rainfall" ∈ df_columns rain_df →
  NoDup (state_month_pairs rain_df) →
  (∀ m, m ∈ DashboardAPI.ordered_months →
        m ∈ map snd (state_month_pairs rain_df)) →
  Dashboard.rain_pivot rain_df = DashboardAPI.rain_pivot rain_df.
Proof.
  intros Hcs Hcm Hcr Hnd Hall.
  rewrite <- rain_observations_pairs in *. rewrite map_map in Hall.
  rewrite api_rain_pivot_closed by done.
  unfold Dashboard.rain_pivot. rewrite pivot_returns by done.
  cbv zeta. cbn [mbind result_bind Py.bind]. unfold select_columns.
  cbn [ix_columns ix_index ix_rows]. fold (rain_observations rain_df).
  fold DashboardAPI.ordered_months.
  rewrite filter_none.
  2:{ intros c Hc Hout. apply Hout, elem_of_sorted_labels. by apply Hall. }
  do 2 f_equal. rewrite map_map. apply map_ext. intros i.
  apply map_ext_in. intros c Hc%list_elem_of_In. f_equal.
  rewrite decide_True by (by apply Hall).
  unfold row_get. rewrite assoc_tabulate; [done|].
  apply elem_of_sorted_labels. by apply Hall.
Qed.

Lemma string_labelled_elem_of (rain_df : Pd.DataFrame (F:=F))
    (row : Pd.Row (F:=F)) :
  string_labelled rain_df = true → row ∈ df_rows rain_df →
  ∃ s m, row_label "State" row = Some s ∧ row_label "Month" row = Some m.
Proof.
  unfold string_labelled. rewrite forallb_forall.
  intros Hall Hrow%list_elem_of_In. specialize (Hall row Hrow).
  destruct (row_label "State" row) as [s|]; [|done].
  destruct (row_label "Month" row) as [m|]; [|done]. eauto.
Qed.

(** C5.  A rainfall table with the three columns, a string in [State] and
    [Month] of every row and no (state, month) pair repeated.  The pivot of
    dashboard-with-API.py returns a table that has one row per state, the
    states in sorted order, and the twelve months as its columns, Jan first
    and Dec last, every row listing its cells in that order; the rainfall
    of every row of the input sits in the row of its state, and in the
    column of its month when that is one of the twelve; and the same table
    comes out for every table with the same columns whose rows are a
    permutation of these.  The pivot of dashboard.py has the same outcome
    on such a permutation, and when each of the twelve months occurs in the
    input it returns this very table. *)
Theorem C5_rain_pivot_canonical (rain_df rain_df' : Pd.DataFrame (F:=F)) :
  "State" ∈ df_columns rain_df → "Month" ∈ df_columns rain_df →
  "Rainfall" ∈ df_columns rain_df →
  string_labelled rain_df = true →
  NoDup (state_month_pairs rain_df) →
  df_columns rain_df' = df_columns rain_df →
  df_rows rain_df' ≡ₚ df_rows rain_df →
  ∃ t,
    DashboardAPI.rain_pivot rain_df = Ok t ∧
    DashboardAPI.rain_pivot rain_df' = Ok t ∧
    ix_columns t = ["Jan"; "Feb"; "Mar"; "Apr"; "May"; "Jun";
                    "Jul"; "Aug"; "Sep"; "Oct"; "Nov"; "Dec"] ∧
    Forall (fun r => map fst r = ix_columns t) (ix_rows t) ∧
    ix_index t
      = map CStr (sorted_labels (map fst (state_month_pairs rain_df))) ∧
    length (ix_rows t) = length (ix_index t) ∧
    (∀ row, row ∈ df_rows rain_df →
       ∃ s m, row_label "State" row = Some s ∧
              row_label "Month" row = Some m ∧
              CStr s ∈ ix_index t ∧
              (m ∈ ix_columns t →
               ix_cell t s m = Some (row_get "Rainfall" row))) ∧
    Dashboard.rain_pivot rain_df' = Dashboard.rain_pivot rain_df ∧
    ((∀ m, m ∈ ix_columns t → m ∈ map snd (state_month_pairs rain_df)) →
     Dashboard.rain_pivot rain_df = Ok t).
Proof.
  intros Hcs Hcm Hcr Hlab Hnd Hc Hp.
  pose proof Hnd as Hnd'. rewrite <- rain_observations_pairs in Hnd'.
  assert (pivot "State" "Month" "Rainfall" rain_df'
          = pivot "State" "Month" "Rainfall" rain_df) as Hperm
    by by apply pivot_Permutation.
  eexists. split; [by apply api_rain_pivot_closed|].
  split.
  { unfold DashboardAPI.rain_pivot. rewrite Hperm.
    by apply api_rain_pivot_closed. }
  cbn [ix_columns ix_rows ix_index].
  split; [done|]. split.
  { apply Forall_fmap, Forall_forall. intros i _. reflexivity. }
  split.
  { by rewrite <- rain_observations_pairs, map_map. }
  split; [by rewrite !length_map|]. split.
  { intros row Hrow.
    destruct (string_labelled_elem_of _ _ Hlab Hrow) as (s & m & Hs & Hm).
    exists s, m. split; [done|]. split; [done|].
    pose proof (elem_of_rain_observations _ _ _ _ Hrow Hs Hm) as Hobs.
    split.
    { apply (list_elem_of_fmap_2 CStr).
      by eapply observation_state_elem_of. }
    intros Hmon.
    destruct (api_rain_pivot_cell_found rain_df row s m) as (t & Ht & Hcell);
      try done.
    rewrite api_rain_pivot_closed in Ht by done.
    injection Ht as <-. exact Hcell. }
  split.
  { unfold Dashboard.rain_pivot. by rewrite Hperm. }
  intros Hall. rewrite dashboard_rain_pivot_full_year by done.
  by apply api_rain_pivot_closed.
Qed.

End Pivot.

Lemma C5_rain_pivot_canonical_witness :
  ∃ t,
    DashboardAPI.rain_pivot Scenarios.full_year_rainfall = Ok t ∧
    DashboardAPI.rain_pivot
      (mkDataFrame ["State"; "Month"; "Rainfall"]
         (reverse (df_rows Scenarios.full_year_rainfall))) = Ok t ∧
    Dashboard.rain_pivot Scenarios.full_year_rainfall = Ok t ∧
    ix_index t = [CStr "Delhi"] ∧
    ix_columns t = DashboardAPI.ordered_months ∧
    ix_cell t "Delhi" "Dec" = Some (CNum (FLit 5)).
Proof.
  destruct (C5_rain_pivot_canonical Scenarios.full_year_rainfall
              (mkDataFrame ["State"; "Month"; "Rainfall"]
                 (reverse (df_rows Scenarios.full_year_rainfall))))
    as (t & Ht & Ht' & Hcols & _ & Hix & _ & Hcell & _ & Hd).
  - apply (bool_decide_unpack _). vm_compute. exact I.
  - apply (bool_decide_unpack _). vm_compute. exact I.
  - apply (bool_decide_unpack _). vm_compute. exact I.
  - reflexivity.
  - apply (bool_decide_unpack _). vm_compute. exact I.
  - reflexivity.
  - apply reverse_Permutation.
  - exists t. split; [exact Ht|]. split; [exact Ht'|]. split.
    { apply Hd. rewrite Hcols. intros m Hm.
      apply (bool_decide_unpack _). revert m Hm.
      apply Forall_forall. apply (bool_decide_unpack _).
      vm_compute. exact I. }
    split; [rewrite Hix; vm_compute; reflexivity|].
    split; [exact Hcols|].
    destruct (Hcell [("State", CStr "Delhi"); ("Month", CStr "Dec");
                     ("Rainfall", CNum (FLit 5))])
      as (s & m & Hs & Hm & _ & Hc).
    + left.
    + injection Hs as <-. injection Hm as <-. apply Hc.
      rewrite Hcols. apply (bool_decide_unpack _). vm_compute. exact I.
Defined.

(* ===================================================================== *)
(** ** Further properties: start-up and the API fetch *)
(* ===================================================================== *)

(** X1.  [_set_visual_style] never asks for a style that is not installed,
    unless it is the last resort [classic]; and an installed
    [seaborn-v0_8] wins over everything else. *)
Theorem set_visual_style_available (available_styles : list string) :
  (Style._set_visual_style available_styles ∈ available_styles ∨
   Style._set_visual_style available_styles = "classic") ∧
  ("seaborn-v0_8" ∈ available_styles →
   Style._set_visual_style available_styles = "seaborn-v0_8") ∧
  (Style._set_visual_style available_styles = "classic" →
   ("seaborn-v0_8" ∉ available_styles) ∧ ("ggplot" ∉ available_styles)).
Proof.
  unfold Style._set_visual_style.
  repeat case_decide; split_and!; try done; auto.
Qed.

Lemma set_visual_style_available_witness :
  Style._set_visual_style ["ggplot"; "seaborn-v0_8"; "bmh"] = "seaborn-v0_8".
Proof.
  apply (set_visual_style_available ["ggplot"; "seaborn-v0_8"; "bmh"]).
  apply (bool_decide_unpack _). vm_compute. exact I.
Defined.

Section Fetch.
Context {F : Type} `{Float64 F}.
Import DashboardAPI.

(** X2.  [_fetch_api_data] delivers data exactly when the request returns,
    its status is not an error status, the body decodes and holds all six
    fields; the data delivered are those six fields. *)
Theorem fetch_api_data_Some (w : World) (city : string) (weather : Weather) :
  _fetch_api_data w city = Ok (Some weather) ↔
  ∃ response data cur loc,
    requests_get w base_url [("key", api_key); ("q", city); ("aqi", "no")]
      = Ok response ∧
    ¬ (400 ≤ status_code response < 600)%Z ∧
    json response = Ok data ∧
    current data = Some cur ∧ location data = Some loc ∧
    temp_c cur = Some (w_temp_c weather) ∧
    precip_mm cur = Some (w_precip_mm weather) ∧
    wind_kph cur = Some (w_wind_kph weather) ∧
    wind_degree cur = Some (w_wind_degree weather) ∧
    lat loc = Some (w_lat weather) ∧ lon loc = Some (w_lon weather).
Proof.
  unfold _fetch_api_data. split.
  - destruct (requests_get w _ _) as [response|e] eqn:Hreq; [|done].
    cbn. unfold raise_for_status. case_decide as Hst; [done|]. cbn.
    destruct (json response) as [data|e] eqn:Hjson; [|done]. cbn.
    destruct (current data) as [cur|] eqn:Hcur; [|done]. cbn.
    destruct (temp_c cur) as [t|] eqn:Ht; [|done]. cbn.
    destruct (precip_mm cur) as [p|] eqn:Hp; [|done]. cbn.
    destruct (wind_kph cur) as [k|] eqn:Hk; [|done]. cbn.
    destruct (wind_degree cur) as [d|] eqn:Hd; [|done]. cbn.
    destruct (location data) as [loc|] eqn:Hloc; [|done]. cbn.
    destruct (lat loc) as [la|] eqn:Hla; [|done]. cbn.
    destruct (lon loc) as [lo|] eqn:Hlo; [|done]. cbn.
    intros [= <-]. exists response, data, cur, loc. by split_and!.
  - intros (response & data & cur & loc & -> & Hst & Hj & Hc & Hl
            & Ht & Hp & Hk & Hd & Hla & Hlo).
    cbn. unfold raise_for_status. rewrite decide_False by done. cbn.
    rewrite Hj. cbn. rewrite Hc. cbn. rewrite Ht, Hp, Hk, Hd. cbn.
    rewrite Hl. cbn. rewrite Hla, Hlo. cbn. by destruct weather.
Qed.

End Fetch.

Lemma fetch_api_data_Some_witness :
  DashboardAPI._fetch_api_data Scenarios.online "Delhi"
  = Ok (Some (DashboardAPI.mkWeather (FLit 21.5) (FLit 7.5) (FLit 12)
                (FLit 270) (FLit 20) (FLit 80))).
Proof.
  apply fetch_api_data_Some.
  eexists _, _, _, _. split; [reflexivity|]. split; [cbn; lia|].
  split; [reflexivity|]. by split_and!.
Defined.

(* ===================================================================== *)
(** ** Further properties: the tables of API mode *)
(* ===================================================================== *)

Section ApiTables.
Context {F : Type} `{Float64 F}.
Import DashboardAPI.







(** The loop in closed form: it appends the three records of every city
    that delivered data, and reads the clock once for each. *)
Lemma collect_fetched (w : World) (items : list (string * string))
    (acc : Collected) :
  collect w acc items
  = Ok (mkCollected
          (temp_data acc
             ++ map temp_record (fetched w (clock_reads acc) items))
          (rain_data acc
             ++ map rain_record (fetched w (clock_reads acc) items))
          (wind_data acc
             ++ map wind_record (fetched w (clock_reads acc) items))
          (clock_reads acc
             + length (fetched w (clock_reads acc) items))).
Proof.
  induction items as [|[city state] items IH] in acc |- *.
  - cbn. rewrite !app_nil_r, Nat.add_0_r. by destruct acc.
  - cbn [collect collect_city fetched].
    destruct (fetch_never_raises w city) as [[weather|] ->]; cbn.
    + rewrite IH. cbn. rewrite <- !app_assoc. cbn.
      by rewrite Nat.add_succ_r.
    + apply IH.
Qed.

Lemma load_api_fetched (w : World) :
  load_weather_data w true
  = Ok (from_records (map temp_record (fetched w 0 STATE_NAMES)),
        from_records (map rain_record (fetched w 0 STATE_NAMES)),
        Some (from_records (map wind_record (fetched w 0 STATE_NAMES)))).
Proof. unfold load_weather_data. by rewrite collect_fetched. Qed.






End ApiTables.

(* ===================================================================== *)
(** ** Further properties: the rainfall pivot, cell by cell *)
(* ===================================================================== *)

Section PivotCells.
Context {F : Type} `{Float64 F}.

(** X9.  What the pivot of dashboard-with-API.py puts where the data are
    silent, in a rainfall table with the three columns, a string in
    [State] and [Month] of every row and no (state, month) pair repeated,
    for a state that occurs in the table and one of the twelve months: 0
    when no row at all has that month, NaN when the month occurs but not
    for this state. *)
Theorem api_rain_pivot_gaps (rain_df : Pd.DataFrame (F:=F)) (s m : string) :
  "State" ∈ df_columns rain_df → "Month" ∈ df_columns rain_df →
  "Rainfall" ∈ df_columns rain_df →
  string_labelled rain_df = true →
  NoDup (state_month_pairs rain_df) →
  s ∈ map fst (state_month_pairs rain_df) →
  m ∈ DashboardAPI.ordered_months →
  (s, m) ∉ state_month_pairs rain_df →
  ∃ t, DashboardAPI.rain_pivot rain_df = Ok t ∧
       ix_cell t s m
       = Some (if decide (m ∈ map snd (state_month_pairs rain_df))
               then CNaN else CNum (f_lit 0)).
Proof.
  intros Hcs Hcm Hcr _ Hnd Hs Hmon Hno.
  by apply api_rain_pivot_cell_gap.
Qed.

(** X10.  A rainfall table in which some (state, month) pair occurs in
    two rows cannot be pivoted: [rain_pivot] of either script raises
    ValueError. *)
Theorem rain_pivot_duplicates (rain_df : Pd.DataFrame (F:=F)) :
  "State" ∈ df_columns rain_df → "Month" ∈ df_columns rain_df →
  "Rainfall" ∈ df_columns rain_df →
  ¬ NoDup (state_month_pairs rain_df) →
  DashboardAPI.rain_pivot rain_df
    = Raise (ValueError "Index contains duplicate entries, cannot reshape") ∧
  Dashboard.rain_pivot rain_df
    = Raise (ValueError "Index contains duplicate entries, cannot reshape").
Proof.
  intros Hcs Hcm Hcr Hnd. rewrite <- rain_observations_pairs in Hnd.
  unfold DashboardAPI.rain_pivot, Dashboard.rain_pivot.
  by rewrite pivot_duplicates.
Qed.

(** X11.  The pivot of dashboard.py needs all twelve months: on a
    rainfall table with the three columns, a string in [State] and [Month]
    of every row and no (state, month) pair repeated, in which one of the
    twelve months occurs in no row, it raises KeyError, where the pivot of
    dashboard-with-API.py returns. *)
Theorem dashboard_rain_pivot_missing_month (rain_df : Pd.DataFrame (F:=F))
    (m : string) :
  "State" ∈ df_columns rain_df → "Month" ∈ df_columns rain_df →
  "Rainfall" ∈ df_columns rain_df →
  string_labelled rain_df = true →
  NoDup (state_month_pairs rain_df) →
  m ∈ DashboardAPI.ordered_months →
  m ∉ map snd (state_month_pairs rain_df) →
  (∃ k, Dashboard.rain_pivot rain_df = Raise (KeyError k)) ∧
  (∃ t, DashboardAPI.rain_pivot rain_df = Ok t).
Proof.
  intros Hcs Hcm Hcr _ Hnd Hmon Hno.
  rewrite <- rain_observations_pairs in *. rewrite map_map in *.
  split; [|rewrite api_rain_pivot_closed by done; eauto].
  unfold Dashboard.rain_pivot. rewrite pivot_returns by done.
  cbv zeta. cbn [mbind result_bind Py.bind]. unfold select_columns.
  cbn [ix_columns]. fold (rain_observations rain_df).
  fold DashboardAPI.ordered_months.
  destruct (filter _ DashboardAPI.ordered_months) as [|m' l] eqn:Hf; [|eauto].
  exfalso. apply filter_nil_not_elem_of with (x := m) in Hf; [done|].
  by rewrite elem_of_sorted_labels.
Qed.

End PivotCells.

(* ===================================================================== *)
(** ** Further properties: what API mode puts in its tables *)
(* ===================================================================== *)

Section ApiContents.
Context {F : Type} `{Float64 F}.
Import DashboardAPI.


Lemma fetched_nil (w : World) (k : nat) (items : list (string * string)) :
  (∀ city, city ∈ map fst items → _fetch_api_data w city = Ok None) →
  fetched w k items = [].
Proof.
  induction items as [|[city state] items IH]; intros Hall; [done|].
  cbn [fetched]. rewrite (Hall city) by by left.
  apply IH. intros c Hc. apply Hall. by right.
Qed.





(** X6.  When no city delivers data, API mode returns three tables
    without columns, on which the temperature join raises KeyError for the
    missing [State] column and the rainfall pivot raises KeyError as well;
    only the wind renderer copes, by skipping. *)
Theorem api_all_failed_renderers (w : World) :
  (∀ city, city ∈ map fst STATE_NAMES → _fetch_api_data w city = Ok None) →
  ∃ t r wd,
    load_weather_data w true = Ok (t, r, Some wd) ∧
    df_columns t = [] ∧ df_columns r = [] ∧ df_columns wd = [] ∧
    (∀ india_states, merged india_states t = Raise (KeyError "State")) ∧
    (∃ k, rain_pivot r = Raise (KeyError k)) ∧
    (∀ render, plot_wind_patterns render (Some wd) = ([], Ok tt)).
Proof.
  intros Hall. rewrite load_api_fetched.
  rewrite (fetched_nil w 0 STATE_NAMES Hall).
  eexists _, _, _. split; [reflexivity|]. split_and!; try done.
  by eexists.
Qed.

End ApiContents.


Lemma api_all_failed_renderers_witness :
  ∃ t r wd,
    DashboardAPI.load_weather_data Worlds.offline true
      = Ok (t, r, Some wd) ∧
    df_columns t = [] ∧ df_columns r = [] ∧ df_columns wd = [] ∧
    (∀ india_states,
       DashboardAPI.merged india_states t = Raise (KeyError "State")) ∧
    (∃ k, DashboardAPI.rain_pivot r = Raise (KeyError k)) ∧
    (∀ render,
       DashboardAPI.plot_wind_patterns render (Some wd) = ([], Ok tt)).
Proof.
  apply (api_all_failed_renderers Worlds.offline).
  intros city _. reflexivity.
Defined.

(* ===================================================================== *)
(** ** Further properties: API mode, from the fetch to the renderers *)
(* ===================================================================== *)

Section ApiPipeline.
Context {F : Type} `{Float64 F}.
Import DashboardAPI.





End ApiPipeline.


Section ApiJoin.
Context {F : Type} `{Float64 F}.
Import DashboardAPI.





End ApiJoin.


Lemma api_rain_pivot_gaps_witness :
  (∃ t, DashboardAPI.rain_pivot Scenarios.gappy_rainfall = Ok t ∧
        ix_cell t "Karnataka" "Mar" = Some CNaN) ∧
  (∃ t, DashboardAPI.rain_pivot Scenarios.gappy_rainfall = Ok t ∧
        ix_cell t "Delhi" "Feb" = Some (CNum (FLit 0))).
Proof.
  split.
  - destruct (api_rain_pivot_gaps Scenarios.gappy_rainfall "Karnataka" "Mar")
      as (t & Ht & Hcell);
      try reflexivity;
      try (apply (bool_decide_unpack _); vm_compute; exact I).
    exists t. split; [exact Ht|]. rewrite Hcell. vm_compute. reflexivity.
  - destruct (api_rain_pivot_gaps Scenarios.gappy_rainfall "Delhi" "Feb")
      as (t & Ht & Hcell);
      try reflexivity;
      try (apply (bool_decide_unpack _); vm_compute; exact I).
    exists t. split; [exact Ht|]. rewrite Hcell. vm_compute. reflexivity.
Defined.

Lemma rain_pivot_duplicates_witness :
  DashboardAPI.rain_pivot Scenarios.doubled_rainfall
    = Raise (ValueError "Index contains duplicate entries, cannot reshape") ∧
  Dashboard.rain_pivot Scenarios.doubled_rainfall
    = Raise (ValueError "Index contains duplicate entries, cannot reshape").
Proof.
  apply (rain_pivot_duplicates Scenarios.doubled_rainfall);
    apply (bool_decide_unpack _); vm_compute; exact I.
Defined.

Lemma dashboard_rain_pivot_missing_month_witness :
  (∃ k, Dashboard.rain_pivot Scenarios.gappy_rainfall = Raise (KeyError k)) ∧
  (∃ t, DashboardAPI.rain_pivot Scenarios.gappy_rainfall = Ok t).
Proof.
  apply (dashboard_rain_pivot_missing_month Scenarios.gappy_rainfall "Feb");
    try reflexivity;
    apply (bool_decide_unpack _); vm_compute; exact I.
Defined.

(* ===================================================================== *)
(** ** Further properties: the synthetic run and non-API mode *)
(* ===================================================================== *)

Section Synthetic.
Context {F : Type} `{Float64 F}.

Lemma map_eq_Forall {A B} (f g : A → B) (l : list A) :
  map f l = map g l → Forall (fun x => f x = g x) l.
Proof.
  induction l as [|x l IH]; intros Heq; [constructor|].
  injection Heq as Hx Hl. constructor; auto.
Qed.

(** X16.  dashboard.py without its cached temperature file: whatever the
    random draws, [load_weather_data] returns two tables of 84 rows in
    which every (state, month) pair of the 7 states and 12 months occurs
    exactly once. *)
Theorem dashboard_synthetic_tables (w : World) :
  pd_read_csv w "data/processed/temperature_data.csv"
    = Raise FileNotFoundError →
  ∃ t r, Dashboard.load_weather_data w = Ok (t, r) ∧
    df_columns t = ["State"; "Month"; "Avg_Temp"; "Latitude"] ∧
    df_columns r = ["State"; "Month"; "Rainfall"] ∧
    length (df_rows t) = 84%nat ∧ length (df_rows r) = 84%nat ∧
    NoDup (state_month_pairs t) ∧ NoDup (state_month_pairs r) ∧
    ∀ s m, s ∈ Dashboard.states → m ∈ Dashboard.months →
           (s, m) ∈ state_month_pairs t ∧ (s, m) ∈ state_month_pairs r.
Proof.
  intros Hmissing. unfold Dashboard.load_weather_data. rewrite Hmissing.
  cbn [try_except_FileNotFoundError].
  eexists _, _. split; [vm_compute; reflexivity|].
  split; [vm_compute; reflexivity|]. split; [vm_compute; reflexivity|].
  split; [vm_compute; reflexivity|]. split; [vm_compute; reflexivity|].
  split; [apply (bool_decide_unpack _); vm_compute; exact I|].
  split; [apply (bool_decide_unpack _); vm_compute; exact I|].
  intros s m Hs Hm.
  assert ((s, m) ∈ list_prod Dashboard.states Dashboard.months) as Hin
    by (apply list_elem_of_In, in_prod; by apply list_elem_of_In).
  split; exact Hin.
Qed.

(** X17.  dashboard.py with neither shapefile nor cached temperature
    file, whatever the random draws: the temperature join gives each of
    the seven fallback states the mean of its twelve generated
    temperatures, so no state is left without a value; the rainfall pivot
    returns with the states in alphabetical order, and its cell for the
    k-th state and j-th month is the (12k+j)-th rainfall draw times the
    seasonal factor of month j. *)
Theorem dashboard_synthetic_renderings (w : World) (e : exn) :
  gpd_read_file w "data/processed/india_states.shp" = Raise e →
  pd_read_csv w "data/processed/temperature_data.csv"
    = Raise FileNotFoundError →
  ∃ india_states t r m p,
    Dashboard._load_india_shapefile w = Ok india_states ∧
    Dashboard.load_weather_data w = Ok (t, r) ∧
    Dashboard.merged india_states t = Ok m ∧
    Dashboard.rain_pivot r = Ok p ∧
    ix_index m = map CStr Dashboard.states ∧
    map (row_get "Avg_Temp") (ix_rows m)
      = map (fun k : nat =>
               CNum (f_mean
                 (map (fun j : nat =>
                         f_add (normal_draw w (f_lit 25) (f_lit 5)
                                            (12 * k + j))
                               (temp_season j))
                      (seq 0 12))))
            (seq 0 7) ∧
    ix_index p = map CStr ["Delhi"; "Karnataka"; "Maharashtra"; "Rajasthan";
                           "Tamil Nadu"; "Uttar Pradesh"; "West Bengal"] ∧
    Forall (fun kj : nat * nat =>
              ix_cell p (nth kj.1 Dashboard.states "")
                        (nth kj.2 Dashboard.months "")
              = Some (CNum (f_mul (gamma_draw w (f_lit 2) (f_lit 50)
                                              (12 * kj.1 + kj.2))
                                  (rain_season kj.2))))
           (list_prod (seq 0 7) (seq 0 12)).
Proof.
  intros Hshp Hmissing.
  destruct (fallback_tables w e Hshp) as [_ Hgeo].
  unfold Dashboard.load_weather_data. rewrite Hmissing.
  cbn [try_except_FileNotFoundError].
  eexists _, _, _, _, _. split; [exact Hgeo|].
  split; [vm_compute; reflexivity|].
  split; [vm_compute; reflexivity|].
  split; [vm_compute; reflexivity|].
  split; [vm_compute; reflexivity|].
  split; [vm_compute; reflexivity|].
  split; [vm_compute; reflexivity|].
  apply map_eq_Forall. vm_compute. reflexivity.
Qed.

End Synthetic.

Lemma dashboard_synthetic_tables_witness :
  ∃ t r, Dashboard.load_weather_data Worlds.offline = Ok (t, r) ∧
    df_columns t = ["State"; "Month"; "Avg_Temp"; "Latitude"] ∧
    df_columns r = ["State"; "Month"; "Rainfall"] ∧
    length (df_rows t) = 84%nat ∧ length (df_rows r) = 84%nat ∧
    NoDup (state_month_pairs t) ∧ NoDup (state_month_pairs r) ∧
    ∀ s m, s ∈ Dashboard.states → m ∈ Dashboard.months →
           (s, m) ∈ state_month_pairs t ∧ (s, m) ∈ state_month_pairs r.
Proof.
  apply (dashboard_synthetic_tables Worlds.offline). reflexivity.
Defined.

Lemma dashboard_synthetic_renderings_witness :
  ∃ india_states t r m p,
    Dashboard._load_india_shapefile Worlds.offline = Ok india_states ∧
    Dashboard.load_weather_data Worlds.offline = Ok (t, r) ∧
    Dashboard.merged india_states t = Ok m ∧
    Dashboard.rain_pivot r = Ok p ∧
    ix_cell p "Delhi" "Jan"
      = Some (CNum (f_mul (FLit (inject_Z 12)) (rain_season 0))).
Proof.
  destruct (dashboard_synthetic_renderings Worlds.offline FileNotFoundError
              eq_refl eq_refl)
    as (g & t & r & m & p & Hg & Hl & Hm & Hp & _ & _ & _ & Hcells).
  exists g, t, r, m, p. split_and!; try assumption.
  rewrite Forall_forall in Hcells.
  apply (Hcells (1%nat, 0%nat)).
  apply (bool_decide_unpack _). vm_compute. exact I.
Defined.


Section NonApiWind.
Context {F : Type} `{Float64 F}.

(** X18.  Non-API mode of dashboard-with-API.py never yields a wind
    table: whenever [load_weather_data(use_api=False)] returns, its third
    component is [None], the two tables are the cached files as read, and
    the wind renderer skips, whatever its plotting calls would do. *)
Theorem non_api_mode_has_no_wind (w : World)
    (t r : Pd.DataFrame (F:=F)) (wd : option (Pd.DataFrame (F:=F))) :
  DashboardAPI.load_weather_data w false = Ok (t, r, wd) →
  wd = None ∧
  pd_read_csv w "data/processed/temperature_data.csv" = Ok t ∧
  pd_read_csv w "data/processed/rainfall_data.csv" = Ok r ∧
  ∀ render, DashboardAPI.plot_wind_patterns render wd = ([], Ok tt).
Proof.
  unfold DashboardAPI.load_weather_data, try_except_FileNotFoundError.
  rewrite api_generator_raises.
  destruct (pd_read_csv w "data/processed/temperature_data.csv")
    as [t'|e1]; cbn.
  - destruct (pd_read_csv w "data/processed/rainfall_data.csv")
      as [r'|e2]; cbn.
    + by intros [= <- <- <-].
    + by destruct e2.
  - by destruct e1.
Qed.

End NonApiWind.

Lemma non_api_mode_has_no_wind_witness :
  (None : option (Pd.DataFrame (F:=fexpr))) = None ∧
  pd_read_csv Worlds.offline_cached "data/processed/temperature_data.csv"
    = Ok Worlds.cached_temperature ∧
  pd_read_csv Worlds.offline_cached "data/processed/rainfall_data.csv"
    = Ok Worlds.cached_rainfall ∧
  ∀ render,
    DashboardAPI.plot_wind_patterns (F:=fexpr) render None = ([], Ok tt).
Proof.
  apply (non_api_mode_has_no_wind Worlds.offline_cached
           Worlds.cached_temperature Worlds.cached_rainfall None).
  reflexivity.
Defined.
